(** * The session supervisor of srt-server.js

    A shallow embedding of the class [SRTServer] (srt-server.js, lines 22-172),
    of the module's start-up code (lines 15-20 and 174-175) and of the two
    signal handlers (lines 796-805).

    The program is event driven: Node delivers [data], [close] and [error]
    events of the spawned ffmpeg child, fires timers and signals, and serves
    HTTP requests that read the statistics.  The embedding keeps the state
    of the one [SRTServer] object, the ChildProcess objects it created (with
    what their handler closures captured), the pending timers and the HLS
    directory in one record, [world]; every handler is a function on it, and
    every observable action (console output, unlink, spawn, kill,
    setTimeout, process.exit) is appended to the world's effect list.

    After the supervisor come the parts around it: the middleware of "/hls"
    (lines 181-196), the scripts of the dashboard (lines 738-780) and of the
    player page (lines 354-479), which poll the statistics, and the
    load-test client (lines 1027-1423). *)

From Stdlib Require Import ZArith Lia Bool Ascii String DecimalString.
From stdpp Require Import base list strings gmap.

Local Open Scope Z_scope.
Local Open Scope string_scope.
Local Open Scope list_scope.

(** ** Strings *)

Module Str.

(** [String.prototype.includes]: [sub] occurs somewhere in [s]. *)
Fixpoint includes (sub s : string) : bool :=
  String.prefix sub s ||
  match s with
  | EmptyString => false
  | String _ rest => includes sub rest
  end.

(** [String.prototype.endsWith]. *)
Definition endsWith (suf s : string) : bool :=
  let n := String.length s in
  let m := String.length suf in
  (m <=? n)%nat && String.eqb (String.substring (n - m) m s) suf.

(** [s.replace(/[:.]/g, "-")]. *)
Fixpoint dashed (s : string) : string :=
  match s with
  | EmptyString => EmptyString
  | String c rest =>
      String (if Ascii.eqb c ":" || Ascii.eqb c "." then "-"%char else c)
             (dashed rest)
  end.

(** Truthiness of a string-or-null value: null and the empty string are
    falsy. *)
Definition truthy (v : option string) : bool :=
  match v with
  | Some s => negb (String.eqb s "")
  | None => false
  end.

(** [path.join(dir, file)] for the two directories of [CONFIG] and a plain
    file name: the parts are joined by a slash and a leading "./" is
    normalised away. *)
Definition path_join (dir file : string) : string :=
  let p := dir +:+ "/" +:+ file in
  if String.prefix "./" p
  then String.substring 2 (String.length p - 2) p
  else p.

End Str.

(** ** Configuration (lines 7-13) *)

Module CONFIG.

Definition srtPort : Z := 9000.
Definition httpPort : Z := 3000.
Definition outputDir : string := "./streams".
Definition hlsDir : string := "./hls".
Definition latency : Z := 200.

End CONFIG.

(** The delay of the restart timer (line 145). *)
Definition restartDelay : Z := 2000.

(** ** Data *)

(** [this.stats] (lines 25-29). *)
Record Stats := mkStats {
  startTime : option Z;
  isLive : bool;
  currentFile : option string
}.

(** The object [getStats] returns (lines 167-170). *)
Record Snapshot := mkSnapshot {
  snap_startTime : option Z;
  snap_isLive : bool;
  snap_currentFile : option string;
  uptime : Z
}.

(** An entry of the HLS directory, as [readdirSync] lists it.  [unlinkable]
    says whether [unlinkSync] succeeds on it; it throws on a subdirectory
    or on a file the process may not remove. *)
Record entry := mkEntry {
  name : string;
  unlinkable : bool
}.

(** A ChildProcess object returned by [spawn]: what the closures of its
    handlers captured ([outputFile], line 57), and whether its [close] event
    was delivered. *)
Record child := mkChild {
  outputFile : string;
  closed : bool
}.

(** Why [clearHLSBuffer] reached its [catch]. *)
Inductive clear_error :=
| ReaddirFailed
| UnlinkFailed (path : string).

(** Console output, one constructor per message of the class. *)
Inductive message :=
| MClearing                      (* "Clearing HLS buffer..."            l.34 *)
| MDeleted (file : string)       (* "   Deleted: <file>"                l.41 *)
| MCleared                       (* "HLS buffer cleared"                l.44 *)
| MClearError (e : clear_error)  (* "Error clearing HLS buffer:" ...    l.46 *)
| MStarting                      (* "Starting SRT server on port ..."   l.54 *)
| MProgress (output : string)    (* "\r" + first 100 chars of the chunk l.115 *)
| MStreamStarted                 (* "Stream started!"                   l.121 *)
| MRecording (file : string)     (* "Recording: <file>"                 l.122 *)
| MWatchLive                     (* "Watch live: http://..."            l.123 *)
| MErrorLine (output : string)   (* "[Error] <chunk>"                   l.128 *)
| MStreamEnded (code : Z)        (* "Stream ended. FFmpeg exited ..."   l.133 *)
| MRecordingSaved (file : string)(* "Recording saved: <file>"           l.135 *)
| MRestarting                    (* "Restarting SRT listener..."        l.143 *)
| MSpawnFailed (err : string)    (* "Failed to start FFmpeg:" ...       l.149 *)
| MListening                     (* the three lines of l.152-154 *)
| MShuttingDown.                 (* "Shutting down..."                  l.797 *)

(** Everything the supervisor does to the outside. *)
Inductive effect :=
| Log (m : message)
| Unlink (path : string) (ok : bool)        (* fs.unlinkSync *)
| Spawn (pid : nat) (args : list string)    (* spawn("ffmpeg", args) *)
| Kill (pid : nat)                          (* child.kill("SIGTERM") *)
| SetTimeout (ms : Z)                       (* setTimeout(restart, ms) *)
| Exit (code : Z).                          (* process.exit(code) *)

Record world := mkWorld {
  ffmpegProcess : option nat;     (* this.ffmpegProcess: index in [children] *)
  stats : Stats;                  (* this.stats *)
  children : list child;          (* the ChildProcess objects, oldest first *)
  timers : list Z;                (* pending restart timers, oldest first *)
  hls : option (list entry);      (* CONFIG.hlsDir; None: it cannot be read *)
  effects : list effect;          (* what was done so far, oldest first *)
  halted : bool                   (* process.exit was called *)
}.

(** *** Field updates *)

Definition emit (e : effect) (w : world) : world :=
  mkWorld (ffmpegProcess w) (stats w) (children w) (timers w) (hls w)
          (effects w ++ [e]) (halted w).

Definition emits (es : list effect) (w : world) : world :=
  mkWorld (ffmpegProcess w) (stats w) (children w) (timers w) (hls w)
          (effects w ++ es) (halted w).

Definition say (m : message) : world -> world := emit (Log m).

Definition set_ffmpegProcess (h : option nat) (w : world) : world :=
  mkWorld h (stats w) (children w) (timers w) (hls w) (effects w) (halted w).

Definition set_stats (s : Stats) (w : world) : world :=
  mkWorld (ffmpegProcess w) s (children w) (timers w) (hls w) (effects w)
          (halted w).

Definition set_children (cs : list child) (w : world) : world :=
  mkWorld (ffmpegProcess w) (stats w) cs (timers w) (hls w) (effects w)
          (halted w).

Definition set_timers (ts : list Z) (w : world) : world :=
  mkWorld (ffmpegProcess w) (stats w) (children w) ts (hls w) (effects w)
          (halted w).

Definition set_hls (d : option (list entry)) (w : world) : world :=
  mkWorld (ffmpegProcess w) (stats w) (children w) (timers w) d (effects w)
          (halted w).

Definition set_halted (b : bool) (w : world) : world :=
  mkWorld (ffmpegProcess w) (stats w) (children w) (timers w) (hls w)
          (effects w) b.

(** ** clearHLSBuffer (lines 33-48) *)

(** The test of line 39. *)
Definition isHLSFile (file : string) : bool :=
  Str.endsWith ".ts" file || Str.endsWith ".m3u8" file.

(** Outcome of the [forEach] of lines 37-43 over a listing: the effects it
    had, the entries still in the directory afterwards, and the path whose
    [unlinkSync] threw, if one did.  The exception leaves the loop: the
    entries after the failing one are not visited. *)
Record sweep := mkSweep {
  swept : list effect;
  kept : list entry;
  thrown : option string
}.

Fixpoint unlinkEach (files : list entry) : sweep :=
  match files with
  | [] => mkSweep [] [] None
  | e :: rest =>
      let filePath := Str.path_join CONFIG.hlsDir (name e) in
      if isHLSFile (name e) then
        if unlinkable e then
          let r := unlinkEach rest in
          mkSweep (Unlink filePath true :: Log (MDeleted (name e)) :: swept r)
                  (kept r) (thrown r)
        else
          mkSweep [Unlink filePath false] (e :: rest) (Some filePath)
      else
        let r := unlinkEach rest in
        mkSweep (swept r) (e :: kept r) (thrown r)
  end.

Definition clearHLSBuffer (w : world) : world :=
  let w := say MClearing w in
  match hls w with
  | None => say (MClearError ReaddirFailed) w
  | Some files =>
      let r := unlinkEach files in
      let w := set_hls (Some (kept r)) (emits (swept r) w) in
      match thrown r with
      | Some p => say (MClearError (UnlinkFailed p)) w
      | None => say MCleared w
      end
  end.

(** ** start (lines 50-155) *)

(** The recording path of line 57; [iso] is what [new Date().toISOString()]
    returned. *)
Definition recordingPath (iso : string) : string :=
  Str.path_join CONFIG.outputDir ("stream-" +:+ Str.dashed iso +:+ ".mp4").

Definition hlsPlaylist : string := Str.path_join CONFIG.hlsDir "stream.m3u8".

(** The arguments of lines 61-107; the input URL is the template of line 64
    at [CONFIG.srtPort] and [CONFIG.latency]. *)
Definition ffmpegArgs (outputFile : string) : list string :=
  [ "-hide_banner"; "-loglevel"; "info";
    "-i"; "srt://0.0.0.0:9000?mode=listener&latency=200";
    "-map"; "0:v:0"; "-map"; "0:a:0"; "-c:v"; "copy"; "-c:a"; "copy";
    "-f"; "mp4"; "-movflags"; "+faststart"; outputFile;
    "-map"; "0:v:0"; "-map"; "0:a:0";
    "-c:v"; "libx264"; "-preset"; "veryfast"; "-tune"; "zerolatency";
    "-profile:v"; "high"; "-level"; "4.2"; "-pix_fmt"; "yuv420p";
    "-crf"; "23"; "-maxrate"; "8000k"; "-bufsize"; "16000k";
    "-g"; "120"; "-sc_threshold"; "0"; "-keyint_min"; "120";
    "-vf"; "scale=1920:1080:flags=bicubic"; "-r"; "30";
    "-c:a"; "aac"; "-b:a"; "192k"; "-ar"; "48000"; "-ac"; "2";
    "-f"; "hls"; "-hls_time"; "2"; "-hls_list_size"; "10";
    "-hls_flags"; "delete_segments+independent_segments";
    "-hls_segment_type"; "mpegts";
    "-hls_segment_filename"; Str.path_join CONFIG.hlsDir "segment%03d.ts";
    "-start_number"; "0"; hlsPlaylist ].

(** [start()]: clears the buffer, spawns the engine and stores its handle.
    The three handlers it registers are [on_data], [on_close] and [on_error]
    below; the new child records the [outputFile] they close over. *)
Definition start (iso : string) (w : world) : world :=
  let w := clearHLSBuffer w in
  let w := say MStarting w in
  let outputFile := recordingPath iso in
  let pid := length (children w) in
  let w := emit (Spawn pid (ffmpegArgs outputFile)) w in
  let w := set_children (children w ++ [mkChild outputFile false]) w in
  let w := set_ffmpegProcess (Some pid) w in
  say MListening w.

(** *** The stderr [data] handler (lines 111-130) *)

Definition hasProgress (output : string) : bool :=
  Str.includes "frame=" output || Str.includes "time=" output.

Definition hasError (output : string) : bool :=
  Str.includes "error" output || Str.includes "Error" output.

(** [c] is the child the handler was registered on, [now] what [Date.now()]
    returns, [output] the chunk as a string. *)
Definition on_data (c : child) (now : Z) (output : string) (w : world) : world :=
  if hasProgress output then
    let w := say (MProgress output) w in
    if negb (isLive (stats w)) then
      let w := set_stats (mkStats (Some now) true (Some (outputFile c))) w in
      let w := say MStreamStarted w in
      let w := say (MRecording (outputFile c)) w in
      say MWatchLive w
    else w
  else if hasError output then
    say (MErrorLine output) w
  else w.

(** *** The [close] handler (lines 132-146) *)

Definition on_close (code : Z) (w : world) : world :=
  let w := say (MStreamEnded code) w in
  let w :=
    match currentFile (stats w) with
    | Some f => if Str.truthy (Some f) then say (MRecordingSaved f) w else w
    | None => w
    end in
  let w := set_stats (mkStats (startTime (stats w)) false
                              (currentFile (stats w))) w in
  let w := clearHLSBuffer w in
  let w := emit (SetTimeout restartDelay) w in
  set_timers (timers w ++ [restartDelay]) w.

(** The callback of the timer (lines 142-145). *)
Definition on_timeout (iso : string) (w : world) : world :=
  start iso (say MRestarting w).

(** *** The [error] handler (lines 148-150) *)

Definition on_error (err : string) (w : world) : world :=
  say (MSpawnFailed err) w.

(** ** stop (lines 157-164) *)

Definition stop (w : world) : world :=
  let w :=
    match ffmpegProcess w with
    | Some pid => set_ffmpegProcess None (emit (Kill pid) w)
    | None => w
    end in
  clearHLSBuffer w.

(** ** getStats (lines 166-171)

    Written in state-passing style like the other methods, so that what it
    leaves of the state is a statement about the function.  The object it
    returns is a new one (a spread of [this.stats] plus [uptime]), so the
    caller holds no reference into the state.  A start time is truthy when
    it is neither null nor 0. *)
Definition getStats (now : Z) (w : world) : Snapshot * world :=
  let s := stats w in
  let up :=
    match startTime s with
    | Some t => if (t =? 0)%Z then 0 else now - t
    | None => 0
    end in
  (mkSnapshot (startTime s) (isLive s) (currentFile s) up, w).

(** ** The program around the class *)

Inductive signal := SIGINT | SIGTERM.

(** The handlers of lines 796-805: [stop()], then [process.exit(0)]. *)
Definition on_signal (sg : signal) (w : world) : world :=
  let w := match sg with
           | SIGINT => say MShuttingDown w
           | SIGTERM => w
           end in
  let w := stop w in
  set_halted true (emit (Exit 0) w).

(** What the environment can do to the running program.  The events of a
    child are separate: Node delivers [error] when the child cannot be
    launched and, as for every child, [close] once its streams are closed. *)
Inductive event :=
| EvData (pid : nat) (now : Z) (output : string)  (* stderr chunk of a child *)
| EvClose (pid : nat) (code : Z)                  (* a child's [close] *)
| EvError (pid : nat) (err : string)              (* a child's [error] *)
| EvTimer (iso : string)                          (* the oldest timer fires *)
| EvDisk (d : option (list entry))                (* the directory changes *)
| EvGetStats (now : Z)                            (* GET /api/stats *)
| EvStop                                          (* a call of [stop()] *)
| EvSignal (sg : signal).

(** The child [pid] still has its handlers called: it was created and its
    [close] was not delivered yet. *)
Definition listening (pid : nat) (w : world) : option child :=
  match children w !! pid with
  | Some c => if closed c then None else Some c
  | None => None
  end.

(** One turn of the event loop.  Nothing runs after [process.exit]; an event
    of a child that does not exist or was closed calls no handler; [close]
    is delivered once per child; a timer event needs a pending timer. *)
Definition step (w : world) (ev : event) : world :=
  if halted w then w else
  match ev with
  | EvData pid now output =>
      match listening pid w with
      | Some c => on_data c now output w
      | None => w
      end
  | EvClose pid code =>
      match listening pid w with
      | Some c =>
          on_close code
            (set_children (<[pid := mkChild (outputFile c) true]> (children w)) w)
      | None => w
      end
  | EvError pid err =>
      match listening pid w with
      | Some _ => on_error err w
      | None => w
      end
  | EvTimer iso =>
      match timers w with
      | _ :: rest => on_timeout iso (set_timers rest w)
      | [] => w
      end
  | EvDisk d => set_hls d w
  | EvGetStats now => snd (getStats now w)
  | EvStop => stop w
  | EvSignal sg => on_signal sg w
  end.

Definition run (evs : list event) (w : world) : world :=
  fold_left step evs w.

(** The module's top level: the directories are made (lines 16-20; [disk]
    is what the HLS directory holds then), the server object is constructed
    (lines 23-30) and started (line 175). *)
Definition constructed (disk : list entry) : world :=
  mkWorld None (mkStats None false None) [] [] (Some disk) [] false.

Definition boot (disk : list entry) (iso : string) : world :=
  start iso (constructed disk).

(** The states the program can be in. *)
Definition reachable (w : world) : Prop :=
  exists disk iso evs, w = run evs (boot disk iso).

(** ** Readings of the effect list *)

Definition is_spawn (e : effect) : bool :=
  match e with Spawn _ _ => true | _ => false end.

Definition is_unlink (e : effect) : bool :=
  match e with Unlink _ _ => true | _ => false end.

Definition is_kill (e : effect) : bool :=
  match e with Kill _ => true | _ => false end.

Definition is_set_timeout (e : effect) : bool :=
  match e with SetTimeout _ => true | _ => false end.

Definition is_clearing (e : effect) : bool :=
  match e with Log MClearing => true | _ => false end.

Definition is_stream_started (e : effect) : bool :=
  match e with Log MStreamStarted => true | _ => false end.

Definition is_error_line (e : effect) : bool :=
  match e with Log (MErrorLine _) => true | _ => false end.

(** A successful [unlinkSync]: a file left the directory. *)
Definition is_removal (e : effect) : bool :=
  match e with Unlink _ true => true | _ => false end.

Definition count (p : effect -> bool) (es : list effect) : nat :=
  length (List.filter p es).

Definition spawns (w : world) : nat := count is_spawn (effects w).

(** What one call of [clearHLSBuffer] prints and does on a directory, and
    what it leaves of it. *)
Definition clearLog (d : option (list entry)) : list effect :=
  Log MClearing ::
  match d with
  | None => [Log (MClearError ReaddirFailed)]
  | Some files =>
      let r := unlinkEach files in
      swept r ++
      [Log (match thrown r with
            | Some p => MClearError (UnlinkFailed p)
            | None => MCleared
            end)]
  end.

Definition clearDisk (d : option (list entry)) : option (list entry) :=
  match d with
  | None => None
  | Some files => Some (kept (unlinkEach files))
  end.

(** The effects of deleting every entry of [files] that line 39 selects. *)
Definition deletions (files : list entry) : list effect :=
  flat_map
    (fun e => if isHLSFile (name e)
              then [Unlink (Str.path_join CONFIG.hlsDir (name e)) true;
                    Log (MDeleted (name e))]
              else [])
    files.

(** The entries line 39 does not select. *)
Definition others (files : list entry) : list entry :=
  List.filter (fun e => negb (isHLSFile (name e))) files.

(** Every selected entry of [files] can be unlinked. *)
Definition deletable (files : list entry) : bool :=
  forallb (fun e => negb (isHLSFile (name e)) || unlinkable e) files.

(** What the [close] handler prints about the recording (lines 134-136). *)
Definition savedLog (f : option string) : list effect :=
  match f with
  | Some p => if Str.truthy (Some p) then [Log (MRecordingSaved p)] else []
  | None => []
  end.

(** ** Events within a session *)

(** Events that leave a session as it is: no [close], no exit of the
    program, no chunk with a progress marker. *)
Definition quiet (ev : event) : bool :=
  match ev with
  | EvClose _ _ | EvSignal _ => false
  | EvData _ _ output => negb (hasProgress output)
  | _ => true
  end.

(** Events other than a [close]: the session has not ended. *)
Definition not_close (ev : event) : bool :=
  match ev with
  | EvClose _ _ => false
  | _ => true
  end.

(** ** Invariants of the event loop *)

(** What holds of [this.stats] in every state: a live session has a start
    time, and the start time and the recording path are set together. *)
Definition stats_ok (s : Stats) : Prop :=
  (isLive s = true -> startTime s <> None) /\
  (startTime s = None <-> currentFile s = None).

(** The children whose [close] is still to come. *)
Definition running (w : world) : list child :=
  List.filter (fun c => negb (closed c)) (children w).

(** One session at a time: either one engine runs and no restart is
    pending, or no engine runs, one restart is pending and the session is
    not live. *)
Definition single_flow (w : world) : Prop :=
  (length (running w) + length (timers w) = 1)%nat /\
  (running w = [] -> isLive (stats w) = false).

(** ** Sample data *)

Definition sample_iso : string := "2025-01-01T10:00:00.000Z".
Definition sample_iso' : string := "2025-01-01T10:05:07.250Z".

(** A buffer directory whose first segment cannot be unlinked. *)
Definition stuck_dir : list entry :=
  [ mkEntry "segment000.ts" false;
    mkEntry "segment001.ts" true;
    mkEntry "stream.m3u8" true ].

(** A buffer directory with a foreign file and a stuck segment in the
    middle. *)
Definition mixed_dir : list entry :=
  [ mkEntry "segment000.ts" true;
    mkEntry "notes.txt" true;
    mkEntry "segment001.ts" false;
    mkEntry "stream.m3u8" true ].

(** ** The engines of a reachable state *)

(** The children are the engines in the order of their spawns.  All but the
    last have exited.  Either the last one runs and no restart is pending,
    or it has exited too, one restart timer is pending and the session is
    not live.  The handle, when one is held, is the last child. *)
Definition lineage (w : world) : Prop :=
  exists cs c,
    children w = cs ++ [c] /\
    Forall (fun x => closed x = true) cs /\
    ((closed c = false /\ timers w = []) \/
     (closed c = true /\ timers w = [restartDelay] /\
      isLive (stats w) = false)) /\
    (ffmpegProcess w = None \/ ffmpegProcess w = Some (length cs)).

(** The children whose [close] was delivered. *)
Definition exited (w : world) : list child :=
  List.filter closed (children w).

(** Events that carry no chunk with a progress marker. *)
Definition no_progress (ev : event) : bool :=
  match ev with
  | EvData _ _ output => negb (hasProgress output)
  | _ => true
  end.

(** * The HTTP layer and the pages it serves *)

(** ** The middleware of "/hls" (lines 181-196) *)

Module Http.

(** The response headers after the middleware ran on a request whose path
    below the mount point is [path]; [h] holds the headers set before.
    [res.header] sets a header, replacing its value.  The middleware then
    calls [next()], which hands the request to the static file server. *)
Definition hlsHeaders (path : string) (h : gmap string string)
  : gmap string string :=
  let h := <["Access-Control-Allow-Origin" := "*"]> h in
  let h := <["Access-Control-Allow-Headers" := "Range"]> h in
  if Str.endsWith ".m3u8" path then
    let h := <["Content-Type" := "application/vnd.apple.mpegurl"]> h in
    <["Cache-Control" := "no-cache, no-store, must-revalidate"]> h
  else if Str.endsWith ".ts" path then
    let h := <["Content-Type" := "video/mp2t"]> h in
    <["Cache-Control" := "public, max-age=31536000"]> h
  else h.

End Http.

(** ** The dashboard script (lines 738-780) *)

Module Dashboard.

(** A whole number as JavaScript prints it in a string concatenation. *)
Definition showZ (z : Z) : string := NilZero.string_of_int (Z.to_int z).

(** [formatUptime(ms)] (lines 739-747), for the whole numbers of
    milliseconds that [getStats] reports.  [Math.floor(a / b)] is the floor
    division of [Z] (the quotient of a whole number of milliseconds by 1000
    or 60 is a whole number or at least a thousandth away from one, so the
    double has the same floor); [%] is the remainder with the sign of the
    dividend. *)
Definition formatUptime (ms : Z) : string :=
  let seconds := ms / 1000 in
  let minutes := seconds / 60 in
  let hours := minutes / 60 in
  if hours >? 0 then
    showZ hours +:+ "h " +:+ showZ (Z.rem minutes 60) +:+ "m"
  else if minutes >? 0 then
    showZ minutes +:+ "m " +:+ showZ (Z.rem seconds 60) +:+ "s"
  else
    showZ seconds +:+ "s".

(** What [updateStats] writes into the page for one answer of
    "/api/stats" (lines 758-774). *)
Record panel := mkPanel {
  indicatorLive : bool;       (* class "live" on the status indicator *)
  statusTitle : string;
  statusMessage : string;
  streamStatus : string;
  uptimeCell : string;
  watchBtn : string           (* style.display of the watch button *)
}.

Definition updateStats (data : Snapshot) : panel :=
  if snap_isLive data then
    mkPanel true "🔴 LIVE" "Stream active - Transcoding to H.264" "🔴 Live"
            (formatUptime (uptime data)) "inline-block"
  else
    mkPanel false "Waiting for Stream"
            "Ready to accept SRT connections (Buffer cleared)" "Offline"
            "0s" "none".

End Dashboard.

(** ** The player page script (lines 354-479) *)

Module Watch.

(** What the browser can play: with Hls.js ([Hls.isSupported()]), natively
    ([video.canPlayType] of the playlist type), or not at all. *)
Inductive browser := HlsJs | NativeHLS | NoHLS.

(** What the script does to the player and the video element. *)
Inductive action :=
| HlsDestroy            (* hls.destroy() *)
| VideoLoad             (* video.load() *)
| HlsCreate             (* new Hls(...), loadSource, attachMedia, two handlers *)
| HlsLoadSource         (* hls.loadSource('/hls/stream.m3u8') *)
| HlsRecover            (* hls.recoverMediaError() *)
| VideoPlay.            (* video.play() *)

Record page := mkPage {
  hls : bool;             (* the variable [hls] holds a player *)
  wasLive : bool;
  videoSrc : string;      (* video.src as the script set it *)
  listeners : nat;        (* 'loadedmetadata' listeners the script added *)
  liveBadge : string;     (* style.display of the three elements *)
  offlineMessage : string;
  playerWrapper : string;
  status : string;        (* status.textContent *)
  pendingInit : nat;      (* setTimeout(initPlayer, 500) not yet fired *)
  pendingReload : nat;    (* the reload timers of a network error *)
  did : list action
}.

Definition act (a : action) (p : page) : page :=
  mkPage (hls p) (wasLive p) (videoSrc p) (listeners p) (liveBadge p)
         (offlineMessage p) (playerWrapper p) (status p) (pendingInit p)
         (pendingReload p) (did p ++ [a]).

Definition set_hls (b : bool) (p : page) : page :=
  mkPage b (wasLive p) (videoSrc p) (listeners p) (liveBadge p)
         (offlineMessage p) (playerWrapper p) (status p) (pendingInit p)
         (pendingReload p) (did p).

Definition set_wasLive (b : bool) (p : page) : page :=
  mkPage (hls p) b (videoSrc p) (listeners p) (liveBadge p)
         (offlineMessage p) (playerWrapper p) (status p) (pendingInit p)
         (pendingReload p) (did p).

Definition set_videoSrc (s : string) (p : page) : page :=
  mkPage (hls p) (wasLive p) s (listeners p) (liveBadge p)
         (offlineMessage p) (playerWrapper p) (status p) (pendingInit p)
         (pendingReload p) (did p).

Definition set_listeners (n : nat) (p : page) : page :=
  mkPage (hls p) (wasLive p) (videoSrc p) n (liveBadge p)
         (offlineMessage p) (playerWrapper p) (status p) (pendingInit p)
         (pendingReload p) (did p).

Definition set_display (badge offline wrapper : string) (p : page) : page :=
  mkPage (hls p) (wasLive p) (videoSrc p) (listeners p) badge offline wrapper
         (status p) (pendingInit p) (pendingReload p) (did p).

Definition set_status (s : string) (p : page) : page :=
  mkPage (hls p) (wasLive p) (videoSrc p) (listeners p) (liveBadge p)
         (offlineMessage p) (playerWrapper p) s (pendingInit p)
         (pendingReload p) (did p).

Definition set_pendingInit (n : nat) (p : page) : page :=
  mkPage (hls p) (wasLive p) (videoSrc p) (listeners p) (liveBadge p)
         (offlineMessage p) (playerWrapper p) (status p) n
         (pendingReload p) (did p).

Definition set_pendingReload (n : nat) (p : page) : page :=
  mkPage (hls p) (wasLive p) (videoSrc p) (listeners p) (liveBadge p)
         (offlineMessage p) (playerWrapper p) (status p) (pendingInit p)
         n (did p).

(** The page as the markup and the declarations of lines 354-361 leave
    it. *)
Definition loaded : page :=
  mkPage false false "" 0 "none" "" "none" "Loading stream..." 0 0 [].

(** [destroyPlayer()] (lines 376-383). *)
Definition destroyPlayer (p : page) : page :=
  let p := if hls p then set_hls false (act HlsDestroy p) else p in
  act VideoLoad (set_videoSrc "" p).

(** The callback of [checkStreamStatus] on an answer of "/api/stats"
    (lines 388-411). *)
Definition checkStreamStatus (isLive : bool) (p : page) : page :=
  if isLive then
    let p := set_display "inline-block" "none" "block" p in
    let p :=
      if negb (wasLive p) || negb (hls p)
      then let p := destroyPlayer p in
           set_pendingInit (S (pendingInit p)) p
      else p in
    set_wasLive true p
  else
    let p := set_display "none" "block" "none" p in
    let p :=
      if wasLive p
      then set_status "⏹️ Stream ended - buffer cleared" (destroyPlayer p)
      else p in
    set_wasLive false p.

(** [initPlayer()] (lines 416-477). *)
Definition initPlayer (b : browser) (p : page) : page :=
  match b with
  | HlsJs => act HlsCreate (set_hls true p)
  | NativeHLS =>
      set_listeners (S (listeners p)) (set_videoSrc "/hls/stream.m3u8" p)
  | NoHLS => set_status "❌ HLS not supported in this browser" p
  end.

(** The fatal errors the handler of lines 438-457 tells apart. *)
Inductive fatal := NetworkError | MediaError | OtherError.

(** What happens on the page. *)
Inductive event :=
| Poll (isLive : bool)         (* an answer of "/api/stats" arrived *)
| InitTimer                    (* a pending initPlayer timeout fires *)
| ManifestParsed (autoplay : bool)
| Fatal (e : fatal)            (* the player reports a fatal error *)
| ReloadTimer                  (* the timeout of a network error fires *)
| LoadedMetadata.              (* the video element loaded the playlist *)

(** One callback.  A timer event needs a pending timer; the events of the
    player need a player. *)
Definition step (b : browser) (p : page) (ev : event) : page :=
  match ev with
  | Poll isLive => checkStreamStatus isLive p
  | InitTimer =>
      match pendingInit p with
      | S n => initPlayer b (set_pendingInit n p)
      | O => p
      end
  | ManifestParsed autoplay =>
      if hls p then
        let p := act VideoPlay
                     (set_status "✅ Stream connected - H.264 playback" p) in
        if autoplay then p
        else set_status "⚠️ Click play to start (autoplay blocked)" p
      else p
  | Fatal e =>
      if hls p then
        match e with
        | NetworkError =>
            set_pendingReload (S (pendingReload p))
              (set_status "❌ Network error - reconnecting..." p)
        | MediaError =>
            act HlsRecover (set_status "❌ Media error - recovering..." p)
        | OtherError =>
            destroyPlayer (set_status "❌ Fatal error - refresh page" p)
        end
      else p
  | ReloadTimer =>
      match pendingReload p with
      | S n =>
          let p := set_pendingReload n p in
          if hls p then act HlsLoadSource p else p
      | O => p
      end
  | LoadedMetadata =>
      Nat.iter (listeners p)
        (fun p => act VideoPlay
                    (set_status "✅ Stream connected (native HLS)" p)) p
  end.

Definition run (b : browser) (evs : list event) (p : page) : page :=
  fold_left (step b) evs p.

Definition is_video_load (a : action) : bool :=
  match a with VideoLoad => true | _ => false end.

Definition is_hls_create (a : action) : bool :=
  match a with HlsCreate => true | _ => false end.

Definition is_hls_destroy (a : action) : bool :=
  match a with HlsDestroy => true | _ => false end.

Definition tally (f : action -> bool) (p : page) : nat :=
  length (List.filter f (did p)).

End Watch.

(** * The load-test client (lines 1027-1423) *)

Module LoadTest.

(** The settings of the test (the object [CONFIG] of the client). *)
Record config := mkConfig {
  NUM_CLIENTS : nat;
  RAMP_UP_TIME : Z;
  TEST_DURATION : Z;
  STATS_INTERVAL : Z;
  RECONNECT_ATTEMPTS : Z
}.

Definition CONFIG : config := mkConfig 100 5000 60000 2000 3.

(** The latency samples a client keeps. *)
Definition window : nat := 100.

Module Client.

(** [this.stats] of a [TestClient]. *)
Record stats := mkStats {
  framesReceived : Z;
  audioChunksReceived : Z;
  videoBytes : Z;
  audioBytes : Z;
  lastFrameTime : Z;
  latencies : list Z;
  connected : bool;
  errors : Z;
  fps : Z;
  lastFpsCheck : Z;
  fpsCounter : Z
}.

(** The statistics a constructor call at time [now] sets up. *)
Definition fresh (now : Z) : stats :=
  mkStats 0 0 0 0 0 [] false 0 0 now 0.

(** The handler of 'video-frame' (lines 1115-1136): [now] is [Date.now()],
    [len] the [byteLength] of the frame.  A sample is taken from the second frame on;
    when the samples exceed the window the oldest is dropped. *)
Definition on_video_frame (now len : Z) (s : stats) : stats :=
  let samples :=
    if lastFrameTime s >? 0 then
      let pushed := latencies s ++ [now - lastFrameTime s] in
      if (window <? length pushed)%nat then tail pushed else pushed
    else latencies s in
  mkStats (framesReceived s + 1) (audioChunksReceived s)
          (videoBytes s + len) (audioBytes s) now samples (connected s)
          (errors s) (fps s) (lastFpsCheck s) (fpsCounter s + 1).

(** The handler of 'audio-data' (lines 1138-1143). *)
Definition on_audio_data (len : Z) (s : stats) : stats :=
  mkStats (framesReceived s) (audioChunksReceived s + 1) (videoBytes s)
          (audioBytes s + len) (lastFrameTime s) (latencies s) (connected s)
          (errors s) (fps s) (lastFpsCheck s) (fpsCounter s).

Definition set_connected (b : bool) (s : stats) : stats :=
  mkStats (framesReceived s) (audioChunksReceived s) (videoBytes s)
          (audioBytes s) (lastFrameTime s) (latencies s) b
          (errors s) (fps s) (lastFpsCheck s) (fpsCounter s).

Definition count_error (s : stats) : stats :=
  mkStats (framesReceived s) (audioChunksReceived s) (videoBytes s)
          (audioBytes s) (lastFrameTime s) (latencies s) (connected s)
          (errors s + 1) (fps s) (lastFpsCheck s) (fpsCounter s).

(** The callback of the interval [startFpsCounter] sets (lines 1156-1161). *)
Definition fps_tick (s : stats) : stats :=
  mkStats (framesReceived s) (audioChunksReceived s) (videoBytes s)
          (audioBytes s) (lastFrameTime s) (latencies s) (connected s)
          (errors s) (fpsCounter s) (lastFpsCheck s) 0.

(** [Math.round(a / n)] for whole [a] and positive [n]: the nearest whole
    number, a half rounding up.  The samples are whole milliseconds and [n]
    is at most 100, so the quotient is a half or at least a two-hundredth
    away from one, and rounding the double is rounding the fraction. *)
Definition round_div (a n : Z) : Z := (2 * a + n) / (2 * n).

Definition sum (l : list Z) : Z := fold_left Z.add l 0.

(** [getAverageLatency()] (lines 1176-1180). *)
Definition getAverageLatency (s : stats) : Z :=
  if (length (latencies s) =? 0)%nat then 0
  else round_div (sum (latencies s)) (Z.of_nat (length (latencies s))).

End Client.

(** A [TestClient]. *)
Record TestClient := mkClient {
  id : Z;
  socket : bool;              (* [this.socket] holds a socket *)
  stats : Client.stats;
  fpsInterval : bool          (* [this.fpsInterval] holds an interval *)
}.

Definition with_stats (f : Client.stats -> Client.stats) (c : TestClient)
  : TestClient :=
  mkClient (id c) (socket c) (f (stats c)) (fpsInterval c).

(** An entry of [stats.errors]. *)
Record report := mkReport {
  clientId : Z;
  error : string;
  time : string
}.

(** The global object [stats]. *)
Record totals := mkTotals {
  clients : list TestClient;
  totalFramesReceived : Z;
  totalAudioChunks : Z;
  totalVideoBytes : Z;
  totalAudioBytes : Z;
  connectedClients : Z;
  failedConnections : Z;
  disconnections : Z;
  startTime : option Z;
  errors : list report
}.

Definition set_clients (cs : list TestClient) (g : totals) : totals :=
  mkTotals cs (totalFramesReceived g) (totalAudioChunks g) (totalVideoBytes g)
           (totalAudioBytes g) (connectedClients g) (failedConnections g)
           (disconnections g) (startTime g) (errors g).

(** The object as the script declares it. *)
Definition declared : totals := mkTotals [] 0 0 0 0 0 0 0 None [].

(** The loop of [initializeClients] (lines 1184-1217): the clients 1 to
    [NUM_CLIENTS] are constructed and pushed; [now] is the time of the
    call, [born i] the time at which the constructor of the client at
    position [i] ran. *)
Definition initializeClients (cfg : config) (now : Z) (born : nat -> Z)
  : totals :=
  mkTotals
    (map (fun i => mkClient (Z.of_nat (S i)) false (Client.fresh (born i)) false)
         (seq 0 (NUM_CLIENTS cfg)))
    0 0 0 0 0 0 0 (Some now) [].

(** What reaches the handlers; [i] is the position of the client in
    [stats.clients]. *)
Inductive event :=
| Dial (i : nat)                     (* connect() is called: io(...) *)
| Connect (i : nat)
| ConnectError (i : nat)
| ConnectFailed (i : nat)            (* the promise of connect() rejected *)
| Disconnect (i : nat)
| VideoFrame (i : nat) (now len : Z)
| AudioData (i : nat) (len : Z)
| SocketError (i : nat) (msg iso : string)
| FpsTick (i : nat).

(** One handler call; an event of a client that does not exist calls
    none. *)
Definition step (g : totals) (ev : event) : totals :=
  match ev with
  | Dial i =>
      match clients g !! i with
      | Some c =>
          set_clients
            (<[i:=mkClient (id c) true (stats c) (fpsInterval c)]> (clients g)) g
      | None => g
      end
  | Connect i =>
      match clients g !! i with
      | Some c =>
          let c := mkClient (id c) (socket c)
                            (Client.set_connected true (stats c)) true in
          mkTotals (<[i:=c]> (clients g)) (totalFramesReceived g)
                   (totalAudioChunks g) (totalVideoBytes g) (totalAudioBytes g)
                   (connectedClients g + 1) (failedConnections g)
                   (disconnections g) (startTime g) (errors g)
      | None => g
      end
  | ConnectError i =>
      match clients g !! i with
      | Some c => set_clients (<[i:=with_stats Client.count_error c]> (clients g)) g
      | None => g
      end
  | ConnectFailed i =>
      mkTotals (clients g) (totalFramesReceived g) (totalAudioChunks g)
               (totalVideoBytes g) (totalAudioBytes g) (connectedClients g)
               (failedConnections g + 1) (disconnections g) (startTime g)
               (errors g)
  | Disconnect i =>
      match clients g !! i with
      | Some c =>
          mkTotals (<[i:=with_stats (Client.set_connected false) c]> (clients g))
                   (totalFramesReceived g) (totalAudioChunks g)
                   (totalVideoBytes g) (totalAudioBytes g)
                   (connectedClients g - 1) (failedConnections g)
                   (disconnections g + 1) (startTime g) (errors g)
      | None => g
      end
  | VideoFrame i now len =>
      match clients g !! i with
      | Some c =>
          mkTotals (<[i:=with_stats (Client.on_video_frame now len) c]> (clients g))
                   (totalFramesReceived g + 1) (totalAudioChunks g)
                   (totalVideoBytes g + len) (totalAudioBytes g)
                   (connectedClients g) (failedConnections g)
                   (disconnections g) (startTime g) (errors g)
      | None => g
      end
  | AudioData i len =>
      match clients g !! i with
      | Some c =>
          mkTotals (<[i:=with_stats (Client.on_audio_data len) c]> (clients g))
                   (totalFramesReceived g) (totalAudioChunks g + 1)
                   (totalVideoBytes g) (totalAudioBytes g + len)
                   (connectedClients g) (failedConnections g)
                   (disconnections g) (startTime g) (errors g)
      | None => g
      end
  | SocketError i msg iso =>
      match clients g !! i with
      | Some c =>
          mkTotals (<[i:=with_stats Client.count_error c]> (clients g))
                   (totalFramesReceived g) (totalAudioChunks g)
                   (totalVideoBytes g) (totalAudioBytes g)
                   (connectedClients g) (failedConnections g)
                   (disconnections g) (startTime g)
                   (errors g ++ [mkReport (id c) msg iso])
      | None => g
      end
  | FpsTick i =>
      match clients g !! i with
      | Some c => set_clients (<[i:=with_stats Client.fps_tick c]> (clients g)) g
      | None => g
      end
  end.

Definition run (evs : list event) (g : totals) : totals :=
  fold_left step evs g.

(** The sum of a counter over the clients. *)
Definition over_clients (f : Client.stats -> Z) (g : totals) : Z :=
  Client.sum (map (fun c => f (stats c)) (clients g)).

(** The times of the frames in a list of events of client [i]. *)
Definition frame_times (i : nat) (evs : list event) : list Z :=
  flat_map (fun ev => match ev with
                      | VideoFrame j now _ => if (j =? i)%nat then [now] else []
                      | _ => []
                      end) evs.

(** The gaps between successive times. *)
Fixpoint gaps (ts : list Z) : list Z :=
  match ts with
  | a :: (b :: _) as rest => (b - a) :: gaps rest
  | _ => []
  end.

(** The last [n] elements. *)
Definition last_n {A} (n : nat) (l : list A) : list A :=
  drop (length l - n) l.

End LoadTest.

(** ** Signals sent and files recorded *)

(** The SIGTERMs sent to the child [pid]. *)
Definition kills (pid : nat) (es : list effect) : nat :=
  count (fun e => match e with Kill q => (q =? pid)%nat | _ => false end) es.

(** An effect the console and the file system cannot produce. *)
Definition silent (p : effect -> bool) : Prop :=
  (forall m, p (Log m) = false) /\ (forall path ok, p (Unlink path ok) = false).

(** * Properties *)

(** ** Counting effects *)

Lemma count_app (p : effect -> bool) (a b : list effect) :
  count p (a ++ b) = (count p a + count p b)%nat.
Proof. unfold count. rewrite List.filter_app, length_app. reflexivity. Qed.

Lemma count_nil (p : effect -> bool) : count p [] = 0%nat.
Proof. reflexivity. Qed.

Lemma count_one (p : effect -> bool) (e : effect) :
  count p [e] = if p e then 1%nat else 0%nat.
Proof. unfold count. simpl. destruct (p e); reflexivity. Qed.

(** ** clearHLSBuffer in one equation *)

Lemma clearHLSBuffer_eq (w : world) :
  clearHLSBuffer w = set_hls (clearDisk (hls w)) (emits (clearLog (hls w)) w).
Proof.
  destruct w as [h s cs ts d es b].
  unfold clearHLSBuffer, clearLog, clearDisk, say, emit, emits, set_hls; simpl.
  destruct d as [files|]; simpl.
  - destruct (thrown (unlinkEach files)); simpl;
      rewrite <- !app_assoc; reflexivity.
  - rewrite <- app_assoc. reflexivity.
Qed.

(** The sweep of a listing whose selected entries can all be unlinked. *)
Lemma unlinkEach_deletable (files : list entry) :
  deletable files = true ->
  unlinkEach files = mkSweep (deletions files) (others files) None.
Proof.
  induction files as [|e rest IH]; simpl; intros Hd; [reflexivity|].
  apply andb_prop in Hd as [He Hrest].
  specialize (IH Hrest).
  destruct (isHLSFile (name e)) eqn:Hm; simpl in *.
  - rewrite He, IH. reflexivity.
  - rewrite IH. reflexivity.
Qed.

(** The sweep of a listing up to its first entry that cannot be unlinked. *)
Lemma unlinkEach_stuck (pre post : list entry) (e : entry) :
  deletable pre = true ->
  isHLSFile (name e) = true ->
  unlinkable e = false ->
  unlinkEach (pre ++ e :: post) =
    mkSweep (deletions pre ++ [Unlink (Str.path_join CONFIG.hlsDir (name e)) false])
            (others pre ++ e :: post)
            (Some (Str.path_join CONFIG.hlsDir (name e))).
Proof.
  intros Hpre Hm Hu.
  induction pre as [|x pre IH]; simpl.
  - rewrite Hm, Hu. reflexivity.
  - simpl in Hpre. apply andb_prop in Hpre as [Hx Hpre].
    specialize (IH Hpre).
    destruct (isHLSFile (name x)) eqn:Hmx; simpl in *.
    + rewrite Hx, IH. reflexivity.
    + rewrite IH. reflexivity.
Qed.

(** What a sweep keeps, a second sweep keeps too, and removes nothing. *)
Lemma unlinkEach_kept (files : list entry) :
  kept (unlinkEach (kept (unlinkEach files))) = kept (unlinkEach files) /\
  thrown (unlinkEach (kept (unlinkEach files))) = thrown (unlinkEach files) /\
  count is_removal (swept (unlinkEach (kept (unlinkEach files)))) = 0%nat.
Proof.
  induction files as [|e rest IH]; simpl; [auto|].
  destruct (isHLSFile (name e)) eqn:Hm.
  - destruct (unlinkable e) eqn:Hu; simpl.
    + exact IH.
    + rewrite Hm, Hu. simpl. auto.
  - simpl. rewrite Hm. simpl. destruct IH as (Hk & Ht & Hc).
    rewrite Hk, Ht. auto.
Qed.

(** A sweep only removes: it never unlinks an entry line 39 does not
    select, and it keeps the order of what stays. *)
Lemma unlinkEach_others (files : list entry) :
  others (kept (unlinkEach files)) = others files.
Proof.
  induction files as [|e rest IH]; simpl; [reflexivity|].
  destruct (isHLSFile (name e)) eqn:Hm.
  - destruct (unlinkable e) eqn:Hu; simpl.
    + exact IH.
    + rewrite Hm. reflexivity.
  - simpl. rewrite Hm. simpl. rewrite IH. reflexivity.
Qed.

(** Every listing either can be swept whole or splits at its first selected
    entry that cannot be unlinked. *)
Lemma first_failure (files : list entry) :
  deletable files = true \/
  exists pre e post,
    files = pre ++ e :: post /\ deletable pre = true /\
    isHLSFile (name e) = true /\ unlinkable e = false.
Proof.
  induction files as [|x rest IH]; [left; reflexivity|].
  destruct (isHLSFile (name x)) eqn:Hm; [destruct (unlinkable x) eqn:Hu|].
  - destruct IH as [Hd | (pre & e & post & -> & Hd & He & Hue)].
    + left. simpl. rewrite Hm, Hu, Hd. reflexivity.
    + right. exists (x :: pre), e, post. simpl. rewrite Hm, Hu, Hd. auto.
  - right. exists [], x, rest. auto.
  - destruct IH as [Hd | (pre & e & post & -> & Hd & He & Hue)].
    + left. simpl. rewrite Hm, Hd. reflexivity.
    + right. exists (x :: pre), e, post. simpl. rewrite Hm, Hd. auto.
Qed.

(** ** C4: a failed deletion ends the cleanup *)

(** C4, as stated, fails.  In a directory whose first segment cannot be
    unlinked, [clearHLSBuffer] tries that segment, logs the one error and
    returns: the second segment and the playlist are never tried and stay in
    the directory. *)
Lemma clearHLSBuffer_abandons_rest :
  let w := clearHLSBuffer (constructed stuck_dir) in
  effects w =
    [ Log MClearing;
      Unlink "hls/segment000.ts" false;
      Log (MClearError (UnlinkFailed "hls/segment000.ts")) ] /\
  hls w = Some stuck_dir /\
  isHLSFile "segment001.ts" = true /\
  count is_unlink (effects w) = 1%nat.
Proof. vm_compute. auto. Qed.

(** C4, amended.  [clearHLSBuffer] unlinks the selected files (.ts, .m3u8)
    in listing order.  If all of them can be unlinked, they are all removed
    and the other entries stay.  Otherwise the sweep ends at the first
    selected file whose unlink fails: the files before it are removed, the
    failure is logged once, and the failing file and every entry after it
    stay, untried.  In both cases the exception does not leave
    [clearHLSBuffer]: the rest of the state is as before, and the caller
    goes on. *)
Theorem clearHLSBuffer_until_first_failure (w : world) (files : list entry) :
  hls w = Some files ->
  let w' := clearHLSBuffer w in
  (ffmpegProcess w' = ffmpegProcess w /\ stats w' = stats w /\
   children w' = children w /\ timers w' = timers w /\ halted w' = halted w) /\
  ((deletable files = true /\
    hls w' = Some (others files) /\
    effects w' = effects w ++ Log MClearing :: deletions files ++ [Log MCleared])
   \/
   (exists pre e post,
      let p := Str.path_join CONFIG.hlsDir (name e) in
      files = pre ++ e :: post /\ deletable pre = true /\
      isHLSFile (name e) = true /\ unlinkable e = false /\
      hls w' = Some (others pre ++ e :: post) /\
      effects w' =
        effects w ++ Log MClearing :: deletions pre ++
          [Unlink p false; Log (MClearError (UnlinkFailed p))])).
Proof.
  intros Hd w'. subst w'. rewrite clearHLSBuffer_eq.
  split; [destruct w; simpl; auto|].
  unfold set_hls, emits; simpl. rewrite Hd. unfold clearLog, clearDisk.
  destruct (first_failure files) as [Hall | (pre & e & post & -> & Hpre & Hm & Hu)].
  - left. rewrite (unlinkEach_deletable _ Hall). simpl. auto.
  - right. exists pre, e, post.
    rewrite (unlinkEach_stuck pre post e Hpre Hm Hu). simpl.
    rewrite <- !app_assoc. simpl. auto 10.
Qed.

Lemma clearHLSBuffer_until_first_failure_witness :
  let w := constructed mixed_dir in
  let w' := clearHLSBuffer w in
  (ffmpegProcess w' = ffmpegProcess w /\ stats w' = stats w /\
   children w' = children w /\ timers w' = timers w /\ halted w' = halted w) /\
  ((deletable mixed_dir = true /\
    hls w' = Some (others mixed_dir) /\
    effects w' =
      effects w ++ Log MClearing :: deletions mixed_dir ++ [Log MCleared])
   \/
   (exists pre e post,
      let p := Str.path_join CONFIG.hlsDir (name e) in
      mixed_dir = pre ++ e :: post /\ deletable pre = true /\
      isHLSFile (name e) = true /\ unlinkable e = false /\
      hls w' = Some (others pre ++ e :: post) /\
      effects w' =
        effects w ++ Log MClearing :: deletions pre ++
          [Unlink p false; Log (MClearError (UnlinkFailed p))])).
Proof.
  apply (clearHLSBuffer_until_first_failure (constructed mixed_dir) mixed_dir).
  reflexivity.
Defined.

(** ** How the methods act on each field *)

Lemma clearHLSBuffer_frame (w : world) :
  ffmpegProcess (clearHLSBuffer w) = ffmpegProcess w /\
  stats (clearHLSBuffer w) = stats w /\
  children (clearHLSBuffer w) = children w /\
  timers (clearHLSBuffer w) = timers w /\
  halted (clearHLSBuffer w) = halted w.
Proof. rewrite clearHLSBuffer_eq. destruct w; simpl; auto. Qed.

Lemma clearHLSBuffer_effects (w : world) :
  effects (clearHLSBuffer w) = effects w ++ clearLog (hls w).
Proof. rewrite clearHLSBuffer_eq. destruct w; reflexivity. Qed.

Lemma clearHLSBuffer_hls (w : world) :
  hls (clearHLSBuffer w) = clearDisk (hls w).
Proof. rewrite clearHLSBuffer_eq. destruct w; reflexivity. Qed.

(** One call of [clearHLSBuffer] announces itself once and neither spawns,
    kills nor sets a timer. *)
Lemma clearLog_counts (d : option (list entry)) :
  count is_spawn (clearLog d) = 0%nat /\
  count is_kill (clearLog d) = 0%nat /\
  count is_set_timeout (clearLog d) = 0%nat /\
  count is_stream_started (clearLog d) = 0%nat /\
  count is_error_line (clearLog d) = 0%nat /\
  count is_clearing (clearLog d) = 1%nat.
Proof.
  assert (Hs : forall files,
    count is_spawn (swept (unlinkEach files)) = 0%nat /\
    count is_kill (swept (unlinkEach files)) = 0%nat /\
    count is_set_timeout (swept (unlinkEach files)) = 0%nat /\
    count is_stream_started (swept (unlinkEach files)) = 0%nat /\
    count is_error_line (swept (unlinkEach files)) = 0%nat /\
    count is_clearing (swept (unlinkEach files)) = 0%nat).
  { induction files as [|e rest IH]; simpl; [repeat split|].
    destruct (isHLSFile (name e)); [destruct (unlinkable e)|]; simpl;
      solve [exact IH | repeat split]. }
  destruct d as [files|]; [|repeat split].
  unfold clearLog.
  change (Log MClearing :: ?l) with ([Log MClearing] ++ l).
  rewrite !count_app, !count_one.
  destruct (Hs files) as (-> & -> & -> & -> & -> & ->).
  destruct (thrown (unlinkEach files)); repeat split.
Qed.

Lemma stop_frame (w : world) :
  ffmpegProcess (stop w) = None /\
  stats (stop w) = stats w /\
  children (stop w) = children w /\
  timers (stop w) = timers w /\
  halted (stop w) = halted w /\
  hls (stop w) = clearDisk (hls w).
Proof.
  unfold stop. rewrite clearHLSBuffer_eq.
  destruct w as [[pid|] s cs ts d es b]; simpl; auto 10.
Qed.

Lemma stop_effects (w : world) :
  effects (stop w) =
    effects w ++
    match ffmpegProcess w with Some pid => [Kill pid] | None => [] end ++
    clearLog (hls w).
Proof.
  unfold stop. rewrite clearHLSBuffer_eq.
  destruct w as [[pid|] s cs ts d es b]; simpl;
    rewrite <- ?app_assoc; reflexivity.
Qed.

(** ** C5: stopping twice *)

(** A directory that holds no selected entry is swept without an effect. *)
Lemma unlinkEach_clean (files : list entry) :
  unlinkEach (others files) = mkSweep [] (others files) None.
Proof.
  unfold others. induction files as [|e rest IH]; simpl; [reflexivity|].
  destruct (isHLSFile (name e)) eqn:Hm; simpl; [exact IH|].
  rewrite Hm, IH. reflexivity.
Qed.

(** C5.  The first [stop()] signals the engine, if there is a handle, and
    runs one cleanup: the state after it has the handle null, the directory
    as one [clearHLSBuffer] leaves it, and the effects of the signal and of
    that one cleanup.  After [stop(); stop()] the state is the state after
    one [stop()] but for the console: the second call finds no handle (no
    second kill), leaves the buffer directory as the first call left it,
    removes no file, and neither call sets a restart timer.  So two calls
    remove exactly what one call removes; when every stream file can be
    unlinked, the first call removes them all and the second only prints
    its two lines.  [clearHLSBuffer] itself runs in both calls (it is
    announced twice); the second run finds nothing it can remove. *)
Theorem stop_twice (w : world) :
  let w1 := stop w in
  let w2 := stop w1 in
  let sent := match ffmpegProcess w with Some pid => [Kill pid] | None => [] end in
  (effects w1 = effects w ++ sent ++ clearLog (hls w) /\
   hls w1 = clearDisk (hls w) /\
   effects w2 = effects w1 ++ clearLog (hls w1) /\
   count is_removal (clearLog (hls w1)) = 0%nat /\
   count is_kill (effects w1) = (count is_kill (effects w) + length sent)%nat /\
   count is_removal (effects w1) =
     (count is_removal (effects w) + count is_removal (clearLog (hls w)))%nat) /\
  (forall files,
     hls w = Some files -> deletable files = true ->
     hls w1 = Some (others files) /\
     effects w1 =
       effects w ++ sent ++ Log MClearing :: deletions files ++ [Log MCleared] /\
     effects w2 = effects w1 ++ [Log MClearing; Log MCleared]) /\
  (ffmpegProcess w1 = None /\ ffmpegProcess w2 = None) /\
  hls w2 = hls w1 /\
  count is_removal (effects w2) = count is_removal (effects w1) /\
  count is_kill (effects w2) = count is_kill (effects w1) /\
  (timers w2 = timers w /\ timers w1 = timers w) /\
  (count is_set_timeout (effects w2) = count is_set_timeout (effects w) /\
   count is_spawn (effects w2) = count is_spawn (effects w)) /\
  stats w2 = stats w1 /\ children w2 = children w1 /\ halted w2 = halted w1 /\
  count is_clearing (effects w2) = S (S (count is_clearing (effects w))).
Proof.
  intros w1 w2 sent. subst w1 w2 sent.
  assert (Hrm : count is_removal (clearLog (clearDisk (hls w))) = 0%nat).
  { destruct (hls w) as [files|]; simpl; [|reflexivity].
    unfold clearLog.
    change (Log MClearing :: ?l) with ([Log MClearing] ++ l).
    rewrite !count_app, !count_one.
    destruct (unlinkEach_kept files) as (_ & _ & ->).
    destruct (thrown _); reflexivity. }
  assert (Hh1 : ffmpegProcess (stop w) = None) by apply stop_frame.
  assert (Hd1 : hls (stop w) = clearDisk (hls w)) by apply stop_frame.
  assert (He2 : effects (stop (stop w)) =
                effects (stop w) ++ clearLog (hls (stop w))).
  { rewrite (stop_effects (stop w)), Hh1. reflexivity. }
  split; [|split].
  - split; [apply stop_effects|]. split; [exact Hd1|].
    split; [exact He2|]. split; [rewrite Hd1; exact Hrm|].
    rewrite stop_effects, !count_app.
    destruct (clearLog_counts (hls w)) as (_ & -> & _).
    destruct (ffmpegProcess w); split; simpl; try lia;
      rewrite ?count_one; simpl; lia.
  - intros files Hd Hall. rewrite He2, Hd1, stop_effects, Hd.
    unfold clearDisk, clearLog.
    rewrite (unlinkEach_deletable _ Hall). simpl.
    rewrite unlinkEach_clean. simpl. auto.
  - assert (Hcl : count is_clearing (effects (stop (stop w))) =
                  S (S (count is_clearing (effects w)))).
    { rewrite !stop_effects, !count_app.
      destruct (clearLog_counts (hls w)) as (_ & _ & _ & _ & _ & ->).
      destruct (clearLog_counts (hls (stop w))) as (_ & _ & _ & _ & _ & ->).
      destruct (ffmpegProcess w), (ffmpegProcess (stop w)); simpl; lia. }
    set (k := count is_clearing (effects (stop (stop w)))) in *. clearbody k.
    clear Hh1 Hd1 He2.
    destruct (stop_frame w) as (Hh1 & Hs1 & Hc1 & Ht1 & Hb1 & Hd1).
    destruct (stop_frame (stop w)) as (Hh2 & Hs2 & Hc2 & Ht2 & Hb2 & Hd2).
    assert (Hdisk : clearDisk (clearDisk (hls w)) = clearDisk (hls w)).
    { destruct (hls w) as [files|]; simpl; [|reflexivity].
      f_equal. apply unlinkEach_kept. }
    rewrite (stop_effects (stop w)), Hh1, Hd1. simpl.
    rewrite !count_app, Hrm.
    destruct (clearLog_counts (clearDisk (hls w))) as (Hsp & Hk & Hto & _).
    rewrite Hsp, Hk, Hto.
    rewrite (stop_effects w), !count_app.
    destruct (clearLog_counts (hls w)) as (Hsp' & _ & Hto' & _).
    rewrite Hsp', Hto'.
    assert (Hkt : count is_set_timeout
                    match ffmpegProcess w with Some pid => [Kill pid] | None => [] end = 0%nat
                  /\ count is_spawn
                    match ffmpegProcess w with Some pid => [Kill pid] | None => [] end = 0%nat).
    { destruct (ffmpegProcess w); split; reflexivity. }
    destruct Hkt as [-> ->].
    rewrite Hd2, Hd1, Hdisk, Ht2, Ht1, Hs2, Hc2, Hb2.
    repeat split; first [reflexivity | assumption | lia | exact Hcl].
Qed.

(** An engine is running and has written segments; one of them cannot be
    unlinked, or (second part) all of them can. *)
Lemma stop_twice_witness :
  let w := run [EvDisk (Some mixed_dir)] (boot [] sample_iso) in
  let w' := run [EvDisk (Some [mkEntry "segment000.ts" true;
                               mkEntry "notes.txt" true;
                               mkEntry "stream.m3u8" true])]
                (boot [] sample_iso) in
  (ffmpegProcess w = Some 0%nat /\
   effects (stop w) =
     effects w ++
     [ Kill 0; Log MClearing;
       Unlink "hls/segment000.ts" true; Log (MDeleted "segment000.ts");
       Unlink "hls/segment001.ts" false;
       Log (MClearError (UnlinkFailed "hls/segment001.ts")) ] /\
   hls (stop w) =
     Some [ mkEntry "notes.txt" true; mkEntry "segment001.ts" false;
            mkEntry "stream.m3u8" true ] /\
   effects (stop (stop w)) =
     effects (stop w) ++
     [ Log MClearing; Unlink "hls/segment001.ts" false;
       Log (MClearError (UnlinkFailed "hls/segment001.ts")) ] /\
   hls (stop (stop w)) = hls (stop w)) /\
  (hls (stop w') = Some [mkEntry "notes.txt" true] /\
   effects (stop w') =
     effects w' ++
     [ Kill 0; Log MClearing;
       Unlink "hls/segment000.ts" true; Log (MDeleted "segment000.ts");
       Unlink "hls/stream.m3u8" true; Log (MDeleted "stream.m3u8");
       Log MCleared ] /\
   effects (stop (stop w')) = effects (stop w') ++ [Log MClearing; Log MCleared]).
Proof.
  intros w w'. split.
  - destruct (stop_twice w) as ((He1 & Hd1 & He2 & _) & _ & _ & Hd2 & _).
    split; [reflexivity|].
    split; [exact He1|]. split; [exact Hd1|]. split; [exact He2|exact Hd2].
  - destruct (stop_twice w') as (_ & Hall & _).
    apply (Hall [mkEntry "segment000.ts" true; mkEntry "notes.txt" true;
                 mkEntry "stream.m3u8" true]); reflexivity.
Defined.

(** ** start, the handlers and the event loop, field by field *)

Lemma start_frame (iso : string) (w : world) :
  ffmpegProcess (start iso w) = Some (length (children w)) /\
  stats (start iso w) = stats w /\
  children (start iso w) = children w ++ [mkChild (recordingPath iso) false] /\
  timers (start iso w) = timers w /\
  halted (start iso w) = halted w /\
  hls (start iso w) = clearDisk (hls w).
Proof.
  unfold start. rewrite clearHLSBuffer_eq. destruct w; simpl; auto 10.
Qed.

Lemma start_effects (iso : string) (w : world) :
  effects (start iso w) =
    effects w ++ clearLog (hls w) ++
    [Log MStarting;
     Spawn (length (children w)) (ffmpegArgs (recordingPath iso));
     Log MListening].
Proof.
  unfold start. rewrite clearHLSBuffer_eq. destruct w; simpl.
  rewrite <- !app_assoc. reflexivity.
Qed.

Lemma start_spawns (iso : string) (w : world) :
  spawns (start iso w) = S (spawns w).
Proof.
  unfold spawns. rewrite start_effects, !count_app.
  destruct (clearLog_counts (hls w)) as (-> & _).
  unfold count. simpl. lia.
Qed.

Lemma on_data_frame (c : child) (now : Z) (output : string) (w : world) :
  ffmpegProcess (on_data c now output w) = ffmpegProcess w /\
  children (on_data c now output w) = children w /\
  timers (on_data c now output w) = timers w /\
  halted (on_data c now output w) = halted w /\
  hls (on_data c now output w) = hls w.
Proof.
  unfold on_data.
  destruct (hasProgress output); [|destruct (hasError output)];
    destruct w as [h [t [|] f] cs ts d es b]; simpl; auto.
Qed.

(** The first-frame branch, and the three ways around it. *)
Lemma on_data_stats (c : child) (now : Z) (output : string) (w : world) :
  stats (on_data c now output w) =
    if hasProgress output && negb (isLive (stats w))
    then mkStats (Some now) true (Some (outputFile c))
    else stats w.
Proof.
  unfold on_data.
  destruct (hasProgress output); [|destruct (hasError output)];
    destruct w as [h [t [|] f] cs ts d es b]; reflexivity.
Qed.

Lemma on_data_effects (c : child) (now : Z) (output : string) (w : world) :
  effects (on_data c now output w) =
    effects w ++
    if hasProgress output then
      Log (MProgress output) ::
      (if negb (isLive (stats w))
       then [Log MStreamStarted; Log (MRecording (outputFile c)); Log MWatchLive]
       else [])
    else if hasError output then [Log (MErrorLine output)]
    else [].
Proof.
  unfold on_data.
  destruct (hasProgress output); [|destruct (hasError output)];
    destruct w as [h [t [|] f] cs ts d es b]; simpl;
    rewrite <- ?app_assoc, ?app_nil_r; reflexivity.
Qed.

Lemma on_close_frame (code : Z) (w : world) :
  ffmpegProcess (on_close code w) = ffmpegProcess w /\
  stats (on_close code w) =
    mkStats (startTime (stats w)) false (currentFile (stats w)) /\
  children (on_close code w) = children w /\
  timers (on_close code w) = timers w ++ [restartDelay] /\
  halted (on_close code w) = halted w /\
  hls (on_close code w) = clearDisk (hls w).
Proof.
  unfold on_close. rewrite clearHLSBuffer_eq.
  destruct w as [h [t l [f|]] cs ts d es b]; simpl;
    [destruct (negb (String.eqb f ""))|]; simpl; auto 10.
Qed.

Lemma on_close_effects (code : Z) (w : world) :
  effects (on_close code w) =
    effects w ++ [Log (MStreamEnded code)] ++ savedLog (currentFile (stats w)) ++
    clearLog (hls w) ++ [SetTimeout restartDelay].
Proof.
  unfold on_close. rewrite clearHLSBuffer_eq.
  destruct w as [h [t l [f|]] cs ts d es b]; simpl;
    [destruct (negb (String.eqb f ""))|]; simpl;
    rewrite <- ?app_assoc; reflexivity.
Qed.

Lemma on_signal_frame (sg : signal) (w : world) :
  halted (on_signal sg w) = true /\
  stats (on_signal sg w) = stats w /\
  children (on_signal sg w) = children w /\
  timers (on_signal sg w) = timers w /\
  spawns (on_signal sg w) = spawns w.
Proof.
  unfold on_signal, spawns.
  set (w0 := match sg with SIGINT => say MShuttingDown w | SIGTERM => w end).
  assert (H0 : stats w0 = stats w /\ children w0 = children w /\
               timers w0 = timers w /\
               count is_spawn (effects w0) = count is_spawn (effects w)).
  { subst w0. destruct sg, w; simpl; rewrite ?count_app; simpl; auto with lia. }
  destruct H0 as (Hs & Hc & Ht & Hn).
  destruct (stop_frame w0) as (_ & Hs' & Hc' & Ht' & _).
  simpl. rewrite count_app, stop_effects, !count_app.
  destruct (clearLog_counts (hls w0)) as (-> & _).
  rewrite Hs', Hc', Ht', Hs, Hc, Ht, Hn.
  destruct (ffmpegProcess w0); rewrite !count_one; simpl;
    repeat split; lia.
Qed.


Lemma run_app (evs evs' : list event) (w : world) :
  run (evs ++ evs') w = run evs' (run evs w).
Proof. apply fold_left_app. Qed.

Lemma reachable_boot (disk : list entry) (iso : string) :
  reachable (boot disk iso).
Proof. exists disk, iso, []. reflexivity. Qed.

Lemma reachable_step (w : world) (ev : event) :
  reachable w -> reachable (step w ev).
Proof.
  intros (disk & iso & evs & ->). exists disk, iso, (evs ++ [ev]).
  rewrite run_app. reflexivity.
Qed.

Lemma reachable_run (evs : list event) (w : world) :
  reachable w -> reachable (run evs w).
Proof.
  revert w. induction evs as [|ev evs IH]; intros w Hw; [exact Hw|].
  change (run (ev :: evs) w) with (run evs (step w ev)).
  apply IH, reachable_step, Hw.
Qed.

(** Induction over the executions of the program. *)
Lemma reachable_ind (P : world -> Prop) :
  (forall disk iso, P (boot disk iso)) ->
  (forall w ev, reachable w -> P w -> P (step w ev)) ->
  forall w, reachable w -> P w.
Proof.
  intros Hboot Hstep w (disk & iso & evs & ->).
  induction evs as [|ev evs IH] using rev_ind; [apply Hboot|].
  rewrite run_app.
  change (run [ev] ?x) with (step x ev). apply Hstep; [|exact IH].
  exists disk, iso, evs. reflexivity.
Qed.

(** The statistics after one turn of the event loop: only the first-frame
    branch and the [close] handler write them. *)
Lemma step_stats (w : world) (ev : event) :
  stats (step w ev) =
    match ev with
    | EvData pid now output =>
        match (if halted w then None else listening pid w) with
        | Some c =>
            if hasProgress output && negb (isLive (stats w))
            then mkStats (Some now) true (Some (outputFile c))
            else stats w
        | None => stats w
        end
    | EvClose pid _ =>
        match (if halted w then None else listening pid w) with
        | Some _ => mkStats (startTime (stats w)) false (currentFile (stats w))
        | None => stats w
        end
    | _ => stats w
    end.
Proof.
  unfold step. destruct (halted w) eqn:Hh; [destruct ev; reflexivity|].
  destruct ev as [pid now output|pid code|pid err|iso|d|now| |sg].
  - destruct (listening pid w); [apply on_data_stats|reflexivity].
  - destruct (listening pid w) as [c|]; [|reflexivity].
    destruct (on_close_frame code
      (set_children (<[pid:=mkChild (outputFile c) true]> (children w)) w))
      as (_ & -> & _).
    destruct w; reflexivity.
  - destruct (listening pid w); [|reflexivity]. destruct w; reflexivity.
  - destruct (timers w) as [|t rest] eqn:Ht; [reflexivity|].
    unfold on_timeout.
    destruct (start_frame iso (say MRestarting (set_timers rest w)))
      as (_ & -> & _).
    destruct w; reflexivity.
  - destruct w; reflexivity.
  - reflexivity.
  - apply stop_frame.
  - apply on_signal_frame.
Qed.

Lemma stats_ok_reachable (w : world) : reachable w -> stats_ok (stats w).
Proof.
  revert w. apply (reachable_ind (fun w => stats_ok (stats w))).
  - intros disk iso. unfold boot.
    destruct (start_frame iso (constructed disk)) as (_ & -> & _).
    simpl. split; [discriminate|tauto].
  - intros w0 ev _ [Hlive Hfile]. rewrite step_stats.
    assert (Hnew : forall now f, stats_ok (mkStats (Some now) true (Some f))).
    { intros now f. split; simpl; [discriminate|]. split; discriminate. }
    assert (Hoff : stats_ok
              (mkStats (startTime (stats w0)) false (currentFile (stats w0)))).
    { split; simpl; [discriminate|exact Hfile]. }
    destruct ev; try (split; assumption).
    + destruct (if halted w0 then None else listening pid w0);
        [|split; assumption].
      destruct (hasProgress output && negb (isLive (stats w0)));
        [apply Hnew|split; assumption].
    + destruct (if halted w0 then None else listening pid w0);
        [exact Hoff|split; assumption].
Qed.

(** *** One session at a time *)

Lemma listening_Some (pid : nat) (w : world) (c : child) :
  listening pid w = Some c <-> children w !! pid = Some c /\ closed c = false.
Proof.
  unfold listening. destruct (children w !! pid) as [c'|]; [|split; [discriminate|intros [? _]; discriminate]].
  destruct (closed c') eqn:Hc; split.
  - discriminate.
  - intros [[= ->] Hc']. congruence.
  - intros [= ->]. auto.
  - intros [[= ->] _]. reflexivity.
Qed.

Lemma close_one_running (cs : list child) (pid : nat) (c : child) (f : string) :
  cs !! pid = Some c -> closed c = false ->
  S (length (List.filter (fun c => negb (closed c))
                         (<[pid:=mkChild f true]> cs))) =
  length (List.filter (fun c => negb (closed c)) cs).
Proof.
  revert pid. induction cs as [|x cs IH]; intros [|pid] Hl Hc;
    try discriminate; simpl in *.
  - injection Hl as ->. rewrite Hc. reflexivity.
  - destruct (negb (closed x)); simpl; rewrite <- (IH pid Hl Hc); reflexivity.
Qed.

Lemma listening_running (pid : nat) (w : world) (c : child) :
  listening pid w = Some c -> running w <> [].
Proof.
  intros [Hl Hc]%listening_Some Hr.
  assert (Hin : In c (running w)).
  { unfold running. apply List.filter_In. split.
    - apply list_elem_of_In, list_elem_of_lookup. eauto.
    - rewrite Hc. reflexivity. }
  rewrite Hr in Hin. destruct Hin.
Qed.

Lemma single_flow_reachable (w : world) : reachable w -> single_flow w.
Proof.
  revert w. apply (reachable_ind single_flow).
  - intros disk iso. unfold boot, single_flow, running.
    destruct (start_frame iso (constructed disk)) as (_ & -> & -> & -> & _).
    simpl. split; [reflexivity|discriminate].
  - intros w0 ev _ [Hsum Hidle].
    unfold single_flow. rewrite step_stats.
    unfold step, running in *. destruct (halted w0) eqn:Hh.
    { destruct ev; split; simpl; assumption. }
    simpl.
    destruct ev as [pid now output|pid code|pid err|iso|d|now| |sg].
    + destruct (listening pid w0) as [c|] eqn:Hl; [|split; assumption].
      destruct (on_data_frame c now output w0) as (_ & -> & -> & _).
      split; [assumption|]. intros Hr.
      apply listening_running in Hl. contradiction.
    + destruct (listening pid w0) as [c|] eqn:Hl; [|split; assumption].
      destruct (on_close_frame code
        (set_children (<[pid:=mkChild (outputFile c) true]> (children w0)) w0))
        as (_ & _ & -> & -> & _).
      apply listening_Some in Hl as [Hl Hc].
      pose proof (close_one_running _ _ _ (outputFile c) Hl Hc) as Hone.
      destruct w0; simpl in *. rewrite length_app. simpl.
      split; [lia|reflexivity].
    + destruct (listening pid w0); [|split; assumption].
      destruct w0; split; assumption.
    + destruct (timers w0) as [|t rest] eqn:Ht;
        [rewrite Ht; split; assumption|].
      unfold on_timeout.
      destruct (start_frame iso (say MRestarting (set_timers rest w0)))
        as (_ & _ & -> & -> & _).
      destruct w0; simpl in *. subst.
      rewrite List.filter_app, length_app. simpl in *.
      split; [lia|].
      intros Hr. apply app_eq_nil in Hr as [_ Hr]. discriminate.
    + destruct w0; split; assumption.
    + split; assumption.
    + destruct (stop_frame w0) as (_ & _ & -> & -> & _). split; assumption.
    + destruct (on_signal_frame sg w0) as (_ & _ & -> & -> & _).
      split; assumption.
Qed.


Lemma on_timeout_spawns (iso : string) (w : world) :
  spawns (on_timeout iso w) = S (spawns w).
Proof.
  unfold on_timeout. rewrite start_spawns. f_equal.
  unfold spawns. destruct w; simpl. rewrite count_app, count_one. simpl. lia.
Qed.

(** ** C1: the start time and the live flag *)

(** C1, as stated, fails.  A session that went live at time 1000 and whose
    engine then exited leaves a state that is not live and has a start
    time; the next session, which exits without a single progress line,
    leaves the same. *)
Lemma startTime_outlives_live :
  let w := run [EvData 0 1000 "frame=    1 fps=0.0 q=-1.0 time=00:00:00.04";
                EvClose 0 0] (boot [] sample_iso) in
  let w' := run [EvTimer sample_iso'; EvClose 1 1] w in
  reachable w /\
  (isLive (stats w) = false /\ startTime (stats w) = Some 1000) /\
  ~ (startTime (stats w) <> None <-> isLive (stats w) = true) /\
  reachable w' /\
  (isLive (stats w') = false /\ startTime (stats w') = Some 1000).
Proof.
  cbv zeta.
  split; [apply reachable_run, reachable_boot|].
  split; [vm_compute; auto|].
  split; [|split; [do 2 apply reachable_run; apply reachable_boot
                  |vm_compute; auto]].
  intros [H _]. assert (Hs : false = true) by (apply H; discriminate).
  discriminate.
Qed.

(** C1, amended.  In every reachable state a live session has a start time.
    The converse does not hold: the [close] handler clears the live flag and
    keeps the start time, and [start] leaves the statistics alone.  The
    start time is null exactly as long as the recording path is, that is,
    until the first session goes live. *)
Theorem live_has_startTime (w : world) :
  reachable w ->
  (isLive (stats w) = true -> startTime (stats w) <> None) /\
  (startTime (stats w) = None <-> currentFile (stats w) = None) /\
  (forall code,
     isLive (stats (on_close code w)) = false /\
     startTime (stats (on_close code w)) = startTime (stats w)) /\
  (forall iso, stats (start iso w) = stats w).
Proof.
  intros Hr. destruct (stats_ok_reachable w Hr) as [Hlive Hfile].
  split; [exact Hlive|]. split; [exact Hfile|]. split.
  - intros code. destruct (on_close_frame code w) as (_ & -> & _). auto.
  - intros iso. apply start_frame.
Qed.

Lemma live_has_startTime_witness :
  let w := run [EvData 0 1000 "frame=    1 fps=0.0 q=-1.0 time=00:00:00.04"]
               (boot stuck_dir sample_iso) in
  (isLive (stats w) = true -> startTime (stats w) <> None) /\
  (startTime (stats w) = None <-> currentFile (stats w) = None) /\
  (forall code,
     isLive (stats (on_close code w)) = false /\
     startTime (stats (on_close code w)) = startTime (stats w)) /\
  (forall iso, stats (start iso w) = stats w).
Proof.
  apply live_has_startTime.
  exists stuck_dir, sample_iso,
    [EvData 0 1000 "frame=    1 fps=0.0 q=-1.0 time=00:00:00.04"].
  reflexivity.
Defined.

(** ** C2: stop and a pending restart *)




(** ** The [close] event *)

Lemma step_close (w : world) (pid : nat) (c : child) (code : Z) :
  halted w = false ->
  listening pid w = Some c ->
  let w' := step w (EvClose pid code) in
  effects w' =
    effects w ++ [Log (MStreamEnded code)] ++ savedLog (currentFile (stats w)) ++
    clearLog (hls w) ++ [SetTimeout restartDelay] /\
  stats w' = mkStats (startTime (stats w)) false (currentFile (stats w)) /\
  hls w' = clearDisk (hls w) /\
  timers w' = timers w ++ [restartDelay] /\
  children w' = <[pid:=mkChild (outputFile c) true]> (children w) /\
  ffmpegProcess w' = ffmpegProcess w /\
  halted w' = false.
Proof.
  intros Hh Hl w'. subst w'. unfold step. rewrite Hh, Hl.
  set (w1 := set_children _ w).
  rewrite on_close_effects.
  destruct (on_close_frame code w1) as (-> & -> & -> & -> & -> & ->).
  subst w1. destruct w; simpl in *. auto 10.
Qed.

Lemma step_timer_spawns (w : world) (iso : string) :
  halted w = false ->
  timers w <> [] ->
  spawns (step w (EvTimer iso)) = S (spawns w).
Proof.
  intros Hh Ht. unfold step. rewrite Hh.
  destruct (timers w) as [|t rest]; [contradiction|].
  rewrite on_timeout_spawns. reflexivity.
Qed.

(** ** C3: an engine that cannot be launched *)

(** C3, as stated, fails.  The child of the first [start] cannot be
    launched: its [error] is delivered, and then its [close], as for every
    child.  The [close] handler clears the buffer and sets the restart
    timer, and the timer spawns the next engine. *)
Lemma failed_spawn_restarts :
  let w0 := boot [] sample_iso in
  let w1 := step w0 (EvError 0 "spawn ffmpeg ENOENT") in
  let w2 := step w1 (EvClose 0 (-2)) in
  let w3 := step w2 (EvTimer sample_iso') in
  effects w1 = effects w0 ++ [Log (MSpawnFailed "spawn ffmpeg ENOENT")] /\
  (count is_clearing (effects w1) = 1%nat /\
   count is_clearing (effects w2) = 2%nat) /\
  (timers w1 = [] /\ timers w2 = [restartDelay]) /\
  (spawns w1 = 1%nat /\ spawns w3 = 2%nat).
Proof. vm_compute. auto 10. Qed.

(** C3, amended.  A failure to launch the engine is reported by the [error]
    handler with a message of its own, and that handler does nothing else:
    the statistics, the handle, the buffer directory, the timers and the
    children are as before; it clears nothing and spawns nothing.  The
    restart loop hangs on [close] alone, and the [close] handler does not
    tell a failed launch from an exit: when the [close] of that child
    arrives, the buffer is cleared and the restart timer is set as after any
    exit. *)
Theorem spawn_failure_is_only_reported
    (w : world) (pid : nat) (c : child) (err : string) :
  halted w = false ->
  listening pid w = Some c ->
  let w1 := step w (EvError pid err) in
  effects w1 = effects w ++ [Log (MSpawnFailed err)] /\
  (stats w1 = stats w /\ ffmpegProcess w1 = ffmpegProcess w /\
   hls w1 = hls w /\ timers w1 = timers w /\ children w1 = children w /\
   halted w1 = false) /\
  (forall code,
     let w2 := step w1 (EvClose pid code) in
     timers w2 = timers w ++ [restartDelay] /\
     count is_clearing (effects w2) = S (count is_clearing (effects w)) /\
     hls w2 = clearDisk (hls w) /\
     spawns w2 = spawns w /\
     forall iso, spawns (step w2 (EvTimer iso)) = S (spawns w)).
Proof.
  intros Hh Hl w1.
  assert (Hw1 : w1 = say (MSpawnFailed err) w).
  { subst w1. unfold step. rewrite Hh, Hl. reflexivity. }
  assert (Hf : effects w1 = effects w ++ [Log (MSpawnFailed err)] /\
               stats w1 = stats w /\ ffmpegProcess w1 = ffmpegProcess w /\
               hls w1 = hls w /\ timers w1 = timers w /\
               children w1 = children w /\ halted w1 = halted w).
  { rewrite Hw1. destruct w; simpl. auto 10. }
  clearbody w1.
  destruct Hf as (He & Hs & Hp & Hd & Ht & Hc & Hb).
  split; [exact He|]. split; [rewrite Hh in Hb; auto 10|].
  intros code w2.
  assert (Hl1 : listening pid w1 = Some c) by (unfold listening; rewrite Hc; exact Hl).
  assert (Hh1 : halted w1 = false) by congruence.
  destruct (step_close w1 pid c code Hh1 Hl1)
    as (He2 & _ & Hd2 & Ht2 & _ & _ & Hh2).
  fold w2 in He2, Hd2, Ht2, Hh2.
  assert (Hsp : spawns w2 = spawns w).
  { unfold spawns. rewrite He2, He, !count_app.
    destruct (clearLog_counts (hls w1)) as (-> & _).
    rewrite !count_one. simpl.
    destruct (currentFile (stats w1)) as [f|]; simpl;
      [destruct (negb (String.eqb f ""))|]; rewrite ?count_one; simpl; lia. }
  split; [rewrite Ht2, Ht; reflexivity|].
  split.
  { rewrite He2, He, !count_app.
    destruct (clearLog_counts (hls w1)) as (_ & _ & _ & _ & _ & ->).
    rewrite !count_one. simpl.
    destruct (currentFile (stats w1)) as [f|]; simpl;
      [destruct (negb (String.eqb f ""))|]; rewrite ?count_one; simpl; lia. }
  split; [rewrite Hd2, Hd; reflexivity|].
  split; [exact Hsp|].
  intros iso. rewrite <- Hsp. apply step_timer_spawns; [exact Hh2|].
  rewrite Ht2. destruct (timers w1); discriminate.
Qed.

Lemma spawn_failure_is_only_reported_witness :
  let w := boot mixed_dir sample_iso in
  let w1 := step w (EvError 0 "spawn ffmpeg ENOENT") in
  effects w1 = effects w ++ [Log (MSpawnFailed "spawn ffmpeg ENOENT")] /\
  (stats w1 = stats w /\ ffmpegProcess w1 = ffmpegProcess w /\
   hls w1 = hls w /\ timers w1 = timers w /\ children w1 = children w /\
   halted w1 = false) /\
  (forall code,
     let w2 := step w1 (EvClose 0 code) in
     timers w2 = timers w ++ [restartDelay] /\
     count is_clearing (effects w2) = S (count is_clearing (effects w)) /\
     hls w2 = clearDisk (hls w) /\
     spawns w2 = spawns w /\
     forall iso, spawns (step w2 (EvTimer iso)) = S (spawns w)).
Proof.
  apply (spawn_failure_is_only_reported (boot mixed_dir sample_iso) 0%nat
           (mkChild (recordingPath sample_iso) false)).
  - reflexivity.
  - reflexivity.
Defined.

(** ** C6: the exit code does not matter *)

(** C6.  Whatever the exit code, the [close] handler does the same: it
    marks the session not live, clears the buffer, and only then sets the
    restart timer, whose callback spawns the next engine.  The code shows in
    the first console line and nowhere else: every other effect and every
    field of the state is given by an expression without it, so two exits
    of the same state with different codes differ in that line only. *)
Theorem close_is_code_agnostic
    (w : world) (pid : nat) (c : child) (code code' : Z) :
  halted w = false ->
  listening pid w = Some c ->
  let w1 := step w (EvClose pid code) in
  let w2 := step w (EvClose pid code') in
  let tail := savedLog (currentFile (stats w)) ++ clearLog (hls w) ++
              [SetTimeout restartDelay] in
  (effects w1 = effects w ++ Log (MStreamEnded code) :: tail /\
   effects w2 = effects w ++ Log (MStreamEnded code') :: tail) /\
  (stats w1 = stats w2 /\ hls w1 = hls w2 /\ timers w1 = timers w2 /\
   children w1 = children w2 /\ ffmpegProcess w1 = ffmpegProcess w2 /\
   halted w1 = halted w2) /\
  (isLive (stats w1) = false /\ hls w1 = clearDisk (hls w) /\
   timers w1 = timers w ++ [restartDelay] /\
   count is_clearing tail = 1%nat /\ count is_set_timeout tail = 1%nat) /\
  (forall iso, spawns (step w1 (EvTimer iso)) = S (spawns w1)).
Proof.
  intros Hh Hl w1 w2 tail.
  destruct (step_close w pid c code Hh Hl) as (He1 & Hs1 & Hd1 & Ht1 & Hc1 & Hp1 & Hh1).
  destruct (step_close w pid c code' Hh Hl) as (He2 & Hs2 & Hd2 & Ht2 & Hc2 & Hp2 & Hh2).
  fold w1 in He1, Hs1, Hd1, Ht1, Hc1, Hp1, Hh1.
  fold w2 in He2, Hs2, Hd2, Ht2, Hc2, Hp2, Hh2.
  split; [split; assumption|].
  split; [repeat split; congruence|].
  split.
  - rewrite Hs1. repeat split; try assumption.
    + subst tail. rewrite !count_app.
      destruct (clearLog_counts (hls w)) as (_ & _ & _ & _ & _ & ->).
      rewrite count_one.
      destruct (currentFile (stats w)) as [f|]; simpl;
        [destruct (negb (String.eqb f ""))|]; rewrite ?count_one; reflexivity.
    + subst tail. rewrite !count_app.
      destruct (clearLog_counts (hls w)) as (_ & _ & -> & _).
      rewrite count_one.
      destruct (currentFile (stats w)) as [f|]; simpl;
        [destruct (negb (String.eqb f ""))|]; rewrite ?count_one; reflexivity.
  - intros iso. apply step_timer_spawns; [exact Hh1|].
    rewrite Ht1. destruct (timers w); discriminate.
Qed.

Lemma close_is_code_agnostic_witness :
  let w := step (boot mixed_dir sample_iso) (EvData 0 1000 "frame=   25") in
  let w1 := step w (EvClose 0 0) in
  let w2 := step w (EvClose 0 255) in
  let tail := savedLog (currentFile (stats w)) ++ clearLog (hls w) ++
              [SetTimeout restartDelay] in
  (effects w1 = effects w ++ Log (MStreamEnded 0) :: tail /\
   effects w2 = effects w ++ Log (MStreamEnded 255) :: tail) /\
  (stats w1 = stats w2 /\ hls w1 = hls w2 /\ timers w1 = timers w2 /\
   children w1 = children w2 /\ ffmpegProcess w1 = ffmpegProcess w2 /\
   halted w1 = halted w2) /\
  (isLive (stats w1) = false /\ hls w1 = clearDisk (hls w) /\
   timers w1 = timers w ++ [restartDelay] /\
   count is_clearing tail = 1%nat /\ count is_set_timeout tail = 1%nat) /\
  (forall iso, spawns (step w1 (EvTimer iso)) = S (spawns w1)).
Proof.
  apply (close_is_code_agnostic
           (step (boot mixed_dir sample_iso) (EvData 0 1000 "frame=   25"))
           0%nat (mkChild (recordingPath sample_iso) false) 0 255).
  - reflexivity.
  - reflexivity.
Defined.

(** ** The [data] event *)

Lemma step_data (w : world) (pid : nat) (c : child) (now : Z) (output : string) :
  halted w = false ->
  listening pid w = Some c ->
  let w' := step w (EvData pid now output) in
  halted w' = false /\ listening pid w' = Some c /\
  stats w' = (if hasProgress output && negb (isLive (stats w))
              then mkStats (Some now) true (Some (outputFile c))
              else stats w) /\
  count is_stream_started (effects w') =
    (count is_stream_started (effects w) +
     if hasProgress output && negb (isLive (stats w)) then 1 else 0)%nat.
Proof.
  intros Hh Hl w'. subst w'. unfold step. rewrite Hh, Hl.
  destruct (on_data_frame c now output w) as (_ & Hc & _ & Hb & _).
  split; [congruence|].
  split; [unfold listening; rewrite Hc; exact Hl|].
  split; [apply on_data_stats|].
  rewrite on_data_effects, count_app. f_equal.
  destruct (hasProgress output); simpl.
  - destruct (negb (isLive (stats w))); reflexivity.
  - destruct (hasError output); reflexivity.
Qed.

(** How often the start of a stream was announced, after one turn of the
    event loop: once more exactly in the first-frame branch. *)
Lemma step_started (w : world) (ev : event) :
  count is_stream_started (effects (step w ev)) =
    (count is_stream_started (effects w) +
     match ev with
     | EvData pid _ output =>
         match (if halted w then None else listening pid w) with
         | Some _ => if hasProgress output && negb (isLive (stats w))
                     then 1 else 0
         | None => 0
         end
     | _ => 0
     end)%nat.
Proof.
  unfold step. destruct (halted w) eqn:Hh; [destruct ev; simpl; lia|].
  assert (Hsaved : forall f, count is_stream_started (savedLog f) = 0%nat).
  { intros [f|]; simpl; [destruct (negb (String.eqb f ""))|]; reflexivity. }
  destruct ev as [pid now output|pid code|pid err|iso|d|now| |sg].
  - destruct (listening pid w) as [c|]; [|lia].
    rewrite on_data_effects, count_app. f_equal.
    destruct (hasProgress output); simpl.
    + destruct (negb (isLive (stats w))); reflexivity.
    + destruct (hasError output); reflexivity.
  - destruct (listening pid w) as [c|]; [|lia].
    rewrite on_close_effects, !count_app, Hsaved.
    destruct (clearLog_counts
                (hls (set_children
                        (<[pid:=mkChild (outputFile c) true]> (children w)) w)))
      as (_ & _ & _ & -> & _).
    rewrite !count_one. destruct w; simpl. lia.
  - destruct (listening pid w); [|lia].
    destruct w; simpl. rewrite count_app, count_one. simpl. lia.
  - destruct (timers w) as [|t rest]; [lia|].
    unfold on_timeout. rewrite start_effects, !count_app.
    destruct (clearLog_counts (hls (say MRestarting (set_timers rest w))))
      as (_ & _ & _ & -> & _).
    destruct w; simpl. rewrite count_app, count_one.
    unfold count; simpl. lia.
  - destruct w; simpl. lia.
  - simpl. lia.
  - rewrite stop_effects, !count_app.
    destruct (clearLog_counts (hls w)) as (_ & _ & _ & -> & _).
    destruct (ffmpegProcess w); rewrite ?count_one; simpl; lia.
  - unfold on_signal. simpl. rewrite count_app, count_one, stop_effects, !count_app.
    set (w0 := match sg with SIGINT => say MShuttingDown w | SIGTERM => w end).
    destruct (clearLog_counts (hls w0)) as (_ & _ & _ & -> & _).
    assert (H0 : count is_stream_started (effects w0) =
                 count is_stream_started (effects w)).
    { subst w0. destruct sg, w; simpl; rewrite ?count_app, ?count_one; simpl; lia. }
    rewrite H0. destruct (ffmpegProcess w0); rewrite ?count_one; simpl; lia.
Qed.

(** Only a signal handler exits the process. *)
Lemma step_halted (w : world) (ev : event) :
  halted (step w ev) =
    halted w || match ev with EvSignal _ => true | _ => false end.
Proof.
  unfold step. destruct (halted w) eqn:Hh; [simpl; exact Hh|].
  destruct ev as [pid now output|pid code|pid err|iso|d|now| |sg]; simpl.
  - destruct (listening pid w) as [c|]; [|exact Hh].
    destruct (on_data_frame c now output w) as (_ & _ & _ & -> & _). exact Hh.
  - destruct (listening pid w) as [c|]; [|exact Hh].
    destruct (on_close_frame code
      (set_children (<[pid:=mkChild (outputFile c) true]> (children w)) w))
      as (_ & _ & _ & _ & -> & _).
    destruct w; exact Hh.
  - destruct (listening pid w); [|exact Hh]. destruct w; exact Hh.
  - destruct (timers w) as [|t rest]; [exact Hh|].
    unfold on_timeout.
    destruct (start_frame iso (say MRestarting (set_timers rest w)))
      as (_ & _ & _ & _ & -> & _).
    destruct w; exact Hh.
  - destruct w; exact Hh.
  - exact Hh.
  - destruct (stop_frame w) as (_ & _ & _ & _ & -> & _). exact Hh.
  - reflexivity.
Qed.

(** A child keeps its handlers, and the recording path they hold, until its
    own [close]. *)
Lemma listening_step (w : world) (pid : nat) (c : child) (ev : event) :
  listening pid w = Some c ->
  (forall code, ev <> EvClose pid code) ->
  listening pid (step w ev) = Some c.
Proof.
  intros Hl Hnc.
  destruct (halted w) eqn:Hh.
  { replace (step w ev) with w; [exact Hl|].
    unfold step. rewrite Hh. reflexivity. }
  unfold step. rewrite Hh.
  destruct ev as [p now output|p code|p err|iso|d|now| |sg].
  - destruct (listening p w) as [c'|]; [|exact Hl].
    unfold listening.
    destruct (on_data_frame c' now output w) as (_ & -> & _). exact Hl.
  - destruct (Nat.eq_dec p pid) as [->|Hne]; [destruct (Hnc code); reflexivity|].
    destruct (listening p w) as [c'|]; [|exact Hl].
    unfold listening.
    destruct (on_close_frame code
      (set_children (<[p:=mkChild (outputFile c') true]> (children w)) w))
      as (_ & _ & -> & _).
    replace (children (set_children
               (<[p:=mkChild (outputFile c') true]> (children w)) w))
      with (<[p:=mkChild (outputFile c') true]> (children w))
      by (destruct w; reflexivity).
    rewrite list_lookup_insert_ne by exact Hne. exact Hl.
  - destruct (listening p w); [|exact Hl].
    unfold listening. destruct w; exact Hl.
  - destruct (timers w) as [|t rest]; [exact Hl|].
    unfold on_timeout, listening.
    destruct (start_frame iso (say MRestarting (set_timers rest w)))
      as (_ & _ & -> & _).
    replace (children (say MRestarting (set_timers rest w))) with (children w)
      by (destruct w; reflexivity).
    apply listening_Some in Hl as [Hl Hc].
    rewrite lookup_app_l by (eapply lookup_lt_Some; exact Hl).
    rewrite Hl, Hc. reflexivity.
  - unfold listening. destruct w; exact Hl.
  - exact Hl.
  - unfold listening.
    destruct (stop_frame w) as (_ & _ & -> & _). exact Hl.
  - unfold listening.
    destruct (on_signal_frame sg w) as (_ & _ & -> & _). exact Hl.
Qed.

(** Quiet events leave the statistics alone and the session running. *)
Lemma run_quiet (pid : nat) (c : child) (evs : list event) :
  forallb quiet evs = true ->
  forall w, halted w = false -> listening pid w = Some c ->
  halted (run evs w) = false /\ listening pid (run evs w) = Some c /\
  stats (run evs w) = stats w /\
  count is_stream_started (effects (run evs w)) =
    count is_stream_started (effects w).
Proof.
  induction evs as [|ev evs IH]; intros Hq w Hh Hl; [simpl; auto|].
  simpl in Hq. apply andb_prop in Hq as [Hev Hq].
  change (run (ev :: evs) w) with (run evs (step w ev)).
  assert (Hh' : halted (step w ev) = false).
  { rewrite step_halted, Hh. destruct ev; try reflexivity; discriminate. }
  assert (Hl' : listening pid (step w ev) = Some c).
  { apply listening_step; [exact Hl|]. intros code ->. discriminate. }
  destruct (IH Hq _ Hh' Hl') as (? & ? & -> & ->).
  rewrite step_stats, step_started.
  split; [assumption|]. split; [assumption|].
  destruct ev as [p now output| | | | | | |]; try discriminate;
    try (split; [reflexivity|lia]).
  simpl in Hev. apply negb_true_iff in Hev. rewrite Hev. simpl.
  destruct (if halted w then None else listening p w); split; auto with lia.
Qed.

(** Once live, the statistics stay and no start is announced, whatever
    happens short of a [close]. *)
Lemma run_live (evs : list event) :
  forallb not_close evs = true ->
  forall w, isLive (stats w) = true ->
  stats (run evs w) = stats w /\
  count is_stream_started (effects (run evs w)) =
    count is_stream_started (effects w).
Proof.
  induction evs as [|ev evs IH]; intros Hq w Hlive; [simpl; auto|].
  simpl in Hq. apply andb_prop in Hq as [Hev Hq].
  change (run (ev :: evs) w) with (run evs (step w ev)).
  assert (Hs : stats (step w ev) = stats w /\
               count is_stream_started (effects (step w ev)) =
                 count is_stream_started (effects w)).
  { rewrite step_stats, step_started.
    destruct ev as [p now output| | | | | | |]; try discriminate;
      try (split; [reflexivity|lia]).
    rewrite Hlive, andb_false_r.
    destruct (if halted w then None else listening p w); split; auto with lia. }
  destruct Hs as [Hs Hn].
  destruct (IH Hq (step w ev)) as [-> ->]; [congruence|]. auto.
Qed.

(** A session starts not live: when a restart timer fires in a reachable
    state, the new engine begins with the live flag down. *)
Lemma new_session_not_live (w : world) (iso : string) :
  reachable w -> halted w = false -> timers w <> [] ->
  isLive (stats (step w (EvTimer iso))) = false /\
  listening (length (children w)) (step w (EvTimer iso)) =
    Some (mkChild (recordingPath iso) false).
Proof.
  intros Hr Hh Ht.
  destruct (single_flow_reachable w Hr) as [Hsum Hidle].
  rewrite step_stats. split.
  - apply Hidle. destruct (running w); [reflexivity|].
    destruct (timers w); [contradiction|]. simpl in Hsum. lia.
  - unfold step. rewrite Hh. destruct (timers w) as [|t rest]; [contradiction|].
    unfold on_timeout, listening.
    destruct (start_frame iso (say MRestarting (set_timers rest w)))
      as (_ & _ & -> & _).
    replace (children (say MRestarting (set_timers rest w))) with (children w)
      by (destruct w; reflexivity).
    rewrite lookup_app_r, Nat.sub_diag by lia. reflexivity.
Qed.

(** ** C7: the live transition fires once *)

(** C7.  Take a session that is not live yet, and follow it up to its
    [close].  The events before the first chunk with a progress marker
    change nothing of the statistics.  The first chunk with "frame=" or
    "time=" sets the live flag, the start time and the recording path and
    announces the start, once.  Whatever comes after it and before the
    [close] (further chunks, with a marker or without, stats requests,
    anything), the statistics stay as that chunk left them (live, same start
    time, same path) and the start is not announced again. *)
Theorem live_transition_fires_once
    (w : world) (pid : nat) (c : child)
    (pre post : list event) (t : Z) (x : string) :
  halted w = false ->
  listening pid w = Some c ->
  isLive (stats w) = false ->
  forallb quiet pre = true ->
  hasProgress x = true ->
  forallb not_close post = true ->
  let w1 := run pre w in
  let w2 := step w1 (EvData pid t x) in
  let w3 := run post w2 in
  (stats w1 = stats w /\
   count is_stream_started (effects w1) = count is_stream_started (effects w)) /\
  (stats w2 = mkStats (Some t) true (Some (outputFile c)) /\
   count is_stream_started (effects w2) =
     S (count is_stream_started (effects w))) /\
  (stats w3 = stats w2 /\
   count is_stream_started (effects w3) = count is_stream_started (effects w2)).
Proof.
  intros Hh Hl Hidle Hpre Hx Hpost w1 w2 w3.
  destruct (run_quiet pid c pre Hpre w Hh Hl) as (Hh1 & Hl1 & Hs1 & Hn1).
  fold w1 in Hh1, Hl1, Hs1, Hn1.
  destruct (step_data w1 pid c t x Hh1 Hl1) as (Hh2 & Hl2 & Hs2 & Hn2).
  fold w2 in Hh2, Hl2, Hs2, Hn2.
  rewrite Hx, Hs1, Hidle in Hs2, Hn2. simpl in Hs2, Hn2.
  assert (Hlive : isLive (stats w2) = true) by (rewrite Hs2; reflexivity).
  destruct (run_live post Hpost w2 Hlive) as (Hs3 & Hn3).
  fold w3 in Hs3, Hn3.
  repeat split; try assumption. lia.
Qed.

Lemma live_transition_fires_once_witness :
  let w := boot [] sample_iso in
  let pre := [EvData 0 990 "Input #0, mpegts, from 'srt://0.0.0.0:9000'";
              EvGetStats 992;
              EvData 0 995 "Error while decoding stream #0:0"] in
  let post := [EvData 0 1040 "frame=    2 fps=0.0 q=-1.0 time=00:00:00.08";
               EvData 0 1050 "deprecated pixel format used";
               EvGetStats 1060;
               EvData 0 1080 "frame=    3 fps=0.0 q=-1.0 time=00:00:00.12"] in
  let w1 := run pre w in
  let w2 := step w1 (EvData 0 1000 "frame=    1 fps=0.0 q=-1.0 time=00:00:00.04") in
  let w3 := run post w2 in
  (stats w1 = stats w /\
   count is_stream_started (effects w1) = count is_stream_started (effects w)) /\
  (stats w2 = mkStats (Some 1000) true (Some (recordingPath sample_iso)) /\
   count is_stream_started (effects w2) =
     S (count is_stream_started (effects w))) /\
  (stats w3 = stats w2 /\
   count is_stream_started (effects w3) = count is_stream_started (effects w2)).
Proof.
  apply (live_transition_fires_once (boot [] sample_iso) 0%nat
           (mkChild (recordingPath sample_iso) false)).
  - reflexivity.
  - reflexivity.
  - reflexivity.
  - reflexivity.
  - reflexivity.
  - reflexivity.
Defined.

(** ** What a turn of the event loop adds *)

(** The effects only grow. *)
Lemma step_effects_grow (w : world) (ev : event) :
  exists es, effects (step w ev) = effects w ++ es.
Proof.
  unfold step. destruct (halted w); [exists []; rewrite app_nil_r; reflexivity|].
  destruct ev as [p now output|p code|p err|iso|d|now| |sg].
  - destruct (listening p w) as [c|];
      [|exists []; rewrite app_nil_r; reflexivity].
    rewrite on_data_effects. eauto.
  - destruct (listening p w) as [c|];
      [|exists []; rewrite app_nil_r; reflexivity].
    rewrite on_close_effects. destruct w; simpl. eauto.
  - destruct (listening p w); [|exists []; rewrite app_nil_r; reflexivity].
    destruct w; simpl. eauto.
  - destruct (timers w) as [|t rest];
      [exists []; rewrite app_nil_r; reflexivity|].
    unfold on_timeout. rewrite start_effects. destruct w; simpl.
    rewrite <- app_assoc. eauto.
  - exists []. destruct w; simpl. rewrite app_nil_r. reflexivity.
  - exists []. rewrite app_nil_r. reflexivity.
  - rewrite stop_effects. eauto.
  - unfold on_signal. simpl. rewrite stop_effects.
    destruct sg, w; simpl; rewrite <- ?app_assoc; eauto.
Qed.

(** The children after one turn of the event loop: the children before,
    with the recording paths they had, and the one a restart spawned. *)
Lemma step_children (w : world) (ev : event) (pid : nat) (c : child) :
  children (step w ev) !! pid = Some c ->
  (exists c0, children w !! pid = Some c0 /\ outputFile c0 = outputFile c) \/
  In (Spawn pid (ffmpegArgs (outputFile c))) (effects (step w ev)).
Proof.
  unfold step. destruct (halted w); [eauto|].
  destruct ev as [p now output|p code|p err|iso|d|now| |sg].
  - destruct (listening p w) as [c'|]; [|eauto].
    destruct (on_data_frame c' now output w) as (_ & -> & _). eauto.
  - destruct (listening p w) as [c'|] eqn:Hl; [|eauto].
    destruct (on_close_frame code
      (set_children (<[p:=mkChild (outputFile c') true]> (children w)) w))
      as (_ & _ & -> & _).
    replace (children (set_children
               (<[p:=mkChild (outputFile c') true]> (children w)) w))
      with (<[p:=mkChild (outputFile c') true]> (children w))
      by (destruct w; reflexivity).
    apply listening_Some in Hl as [Hl _].
    destruct (Nat.eq_dec p pid) as [->|Hne].
    + rewrite list_lookup_insert_eq by (eapply lookup_lt_Some; exact Hl).
      intros [= <-]. left. eauto.
    + rewrite list_lookup_insert_ne by exact Hne. eauto.
  - destruct (listening p w); [destruct w|]; eauto.
  - destruct (timers w) as [|t rest]; [eauto|].
    unfold on_timeout.
    set (w1 := say MRestarting (set_timers rest w)).
    assert (Hc1 : children w1 = children w) by (destruct w; reflexivity).
    rewrite start_effects.
    destruct (start_frame iso w1) as (_ & _ & -> & _).
    rewrite Hc1. intros [Hold | [Hlen Hnew]]%lookup_app_Some; [eauto|].
    right. destruct (pid - length (children w))%nat as [|k] eqn:Hk;
      [|destruct k; discriminate].
    injection Hnew as <-. cbn [outputFile].
    assert (pid = length (children w)) by lia. subst pid.
    apply in_or_app. right. apply in_or_app. right.
    right. left. reflexivity.
  - destruct w; eauto.
  - eauto.
  - destruct (stop_frame w) as (_ & _ & -> & _). eauto.
  - destruct (on_signal_frame sg w) as (_ & _ & -> & _). eauto.
Qed.

(** In every reachable state each child was spawned with the recording path
    its handlers hold. *)
Lemma children_spawned (w : world) :
  reachable w ->
  forall pid c,
    children w !! pid = Some c ->
    In (Spawn pid (ffmpegArgs (outputFile c))) (effects w).
Proof.
  revert w. apply (reachable_ind (fun w =>
    forall pid c,
      children w !! pid = Some c ->
      In (Spawn pid (ffmpegArgs (outputFile c))) (effects w))).
  - intros disk iso. unfold boot.
    destruct (start_frame iso (constructed disk)) as (_ & _ & -> & _).
    rewrite start_effects.
    intros [|pid] c [= <-]. cbn [outputFile length children constructed].
    apply in_or_app. right. apply in_or_app. right.
    right. left. reflexivity.
  - intros w ev _ Hkids pid c [(c0 & Hc0 & <-) | Hnew]%step_children;
      [|exact Hnew].
    destruct (step_effects_grow w ev) as [es ->].
    apply in_or_app. left. apply Hkids, Hc0.
Qed.

(** ** C8: when the recording path is recorded *)

(** C8, as stated, fails.  Right after the first spawn the engine was given
    its recording path, yet [stats.currentFile] is null.  After the first
    session went live and ended, the second engine runs with a path of its
    own while [stats.currentFile] still holds the first session's path. *)
Lemma currentFile_not_set_at_spawn :
  let w := boot [] sample_iso in
  let w' := run [EvData 0 1000 "frame=    1 fps=0.0 q=-1.0 time=00:00:00.04";
                 EvClose 0 0; EvTimer sample_iso'] w in
  (listening 0 w = Some (mkChild (recordingPath sample_iso) false) /\
   In (Spawn 0 (ffmpegArgs (recordingPath sample_iso))) (effects w) /\
   currentFile (stats w) = None) /\
  (listening 1 w' = Some (mkChild (recordingPath sample_iso') false) /\
   In (Spawn 1 (ffmpegArgs (recordingPath sample_iso'))) (effects w') /\
   currentFile (stats w') = Some (recordingPath sample_iso) /\
   String.eqb (recordingPath sample_iso) (recordingPath sample_iso') = false).
Proof.
  cbv zeta. repeat split; try (vm_compute; reflexivity).
  - vm_compute. tauto.
  - vm_compute. tauto.
Qed.

(** C8, amended.  [start] fixes the session's recording path: it is passed
    to the engine in the arguments of [spawn] and kept by the new child's
    handlers, and in every reachable state each child whose handlers are
    still called was spawned with the path they hold.  [start] leaves
    [stats.currentFile] as it was: null in the first session, the path of
    the last session that went live afterwards.  A progress chunk from a
    child whose handlers are called, while the session is not live, sets
    [stats.currentFile] to that child's recording path; this live
    transition is the one event that writes it, every other event leaves
    it (a child keeps its path until its own [close]), and so does every
    later chunk of a live session.  Over a session: [stats.currentFile] is
    unchanged up to the first progress chunk, and from that chunk on it is
    the session's recording path, whatever happens short of a [close]. *)
Theorem currentFile_set_at_live_transition (w : world) (ev : event) :
  (forall iso,
     let pid := length (children w) in
     stats (start iso w) = stats w /\
     children (start iso w) = children w ++ [mkChild (recordingPath iso) false] /\
     listening pid (start iso w) = Some (mkChild (recordingPath iso) false) /\
     effects (start iso w) =
       effects w ++ clearLog (hls w) ++
       [Log MStarting; Spawn pid (ffmpegArgs (recordingPath iso));
        Log MListening]) /\
  (reachable w ->
   forall pid c,
     listening pid w = Some c ->
     In (Spawn pid (ffmpegArgs (outputFile c))) (effects w)) /\
  (forall pid now output c,
     halted w = false -> listening pid w = Some c ->
     hasProgress output = true -> isLive (stats w) = false ->
     stats (step w (EvData pid now output)) =
       mkStats (Some now) true (Some (outputFile c))) /\
  (currentFile (stats (step w ev)) = currentFile (stats w) \/
   exists pid now output c,
     ev = EvData pid now output /\ halted w = false /\
     listening pid w = Some c /\
     hasProgress output = true /\ isLive (stats w) = false /\
     stats (step w ev) = mkStats (Some now) true (Some (outputFile c))) /\
  (forall pid c ev',
     listening pid w = Some c ->
     (forall code, ev' <> EvClose pid code) ->
     listening pid (step w ev') = Some c) /\
  (isLive (stats w) = true ->
   forall pid now output,
     stats (step w (EvData pid now output)) = stats w) /\
  (forall pid c pre now output post,
     halted w = false -> listening pid w = Some c ->
     isLive (stats w) = false ->
     forallb quiet pre = true -> hasProgress output = true ->
     forallb not_close post = true ->
     currentFile (stats (run pre w)) = currentFile (stats w) /\
     currentFile (stats (run (pre ++ [EvData pid now output]) w)) =
       Some (outputFile c) /\
     currentFile (stats (run (pre ++ [EvData pid now output] ++ post) w)) =
       Some (outputFile c)).
Proof.
  split.
  { intros iso pid. subst pid.
    destruct (start_frame iso w) as (_ & Hs & Hc & _).
    split; [exact Hs|]. split; [exact Hc|]. split; [|apply start_effects].
    unfold listening. rewrite Hc, lookup_app_r, Nat.sub_diag by lia.
    reflexivity. }
  split.
  { intros Hr pid c [Hl _]%listening_Some.
    exact (children_spawned w Hr pid c Hl). }
  split.
  { intros pid now output c Hh Hl Hp Hlive.
    destruct (step_data w pid c now output Hh Hl) as (_ & _ & -> & _).
    rewrite Hp, Hlive. reflexivity. }
  split; [|split; [|split]].
  - rewrite step_stats.
    destruct ev as [pid now output|pid code| | | | | |]; try (left; reflexivity).
    + destruct (halted w) eqn:Hh; [left; reflexivity|].
      destruct (listening pid w) as [c|] eqn:Hl; [|left; reflexivity].
      destruct (hasProgress output) eqn:Hp; [|left; reflexivity].
      destruct (isLive (stats w)) eqn:Hlive; [left; reflexivity|].
      right. exists pid, now, output, c. simpl. auto 10.
    + destruct (if halted w then None else listening pid w); left; reflexivity.
  - intros pid c ev' Hl Hnc. apply listening_step; assumption.
  - intros Hlive pid now output. rewrite step_stats.
    destruct (if halted w then None else listening pid w); [|reflexivity].
    rewrite Hlive, andb_false_r. reflexivity.
  - intros pid c pre now output post Hh Hl Hlive Hpre Hp Hpost.
    destruct (run_quiet pid c pre Hpre w Hh Hl) as (Hh1 & Hl1 & Hs1 & _).
    destruct (step_data (run pre w) pid c now output Hh1 Hl1)
      as (_ & _ & Hs2 & _).
    rewrite Hs1, Hp, Hlive in Hs2. simpl in Hs2.
    assert (Hmid : stats (run (pre ++ [EvData pid now output]) w) =
                   mkStats (Some now) true (Some (outputFile c))).
    { rewrite run_app. exact Hs2. }
    split; [rewrite Hs1; reflexivity|].
    split; [rewrite Hmid; reflexivity|].
    rewrite app_assoc, run_app.
    destruct (run_live post Hpost (run (pre ++ [EvData pid now output]) w))
      as [-> _]; rewrite Hmid; reflexivity.
Qed.

(** The first session goes live on its first frame, and so does the second
    session after a restart: each time [stats.currentFile] becomes the path
    the session's engine was spawned with. *)
Lemma currentFile_set_at_live_transition_witness :
  let frame := "frame=    1 fps=0.0 q=-1.0 time=00:00:00.04" in
  let w := boot [] sample_iso in
  let w' := run [EvData 0 1000 frame; EvClose 0 0; EvTimer sample_iso'] w in
  (In (Spawn 0 (ffmpegArgs "streams/stream-2025-01-01T10-00-00-000Z.mp4"))
      (effects w) /\
   currentFile (stats w) = None /\
   stats (step w (EvData 0 1000 frame)) =
     mkStats (Some 1000) true
             (Some "streams/stream-2025-01-01T10-00-00-000Z.mp4")) /\
  (In (Spawn 1 (ffmpegArgs "streams/stream-2025-01-01T10-05-07-250Z.mp4"))
      (effects w') /\
   currentFile (stats w') =
     Some "streams/stream-2025-01-01T10-00-00-000Z.mp4" /\
   currentFile (stats (run ([EvGetStats 7000] ++ [EvData 1 8000 frame] ++
                            [EvData 1 9000 frame; EvStop]) w')) =
     Some "streams/stream-2025-01-01T10-05-07-250Z.mp4").
Proof.
  intros frame w w'. split.
  - destruct (currentFile_set_at_live_transition w (EvData 0 1000 frame))
      as (_ & Hspawn & Hset & _).
    split; [|split; [reflexivity|]].
    + apply (Hspawn (reachable_boot [] sample_iso) 0%nat
               (mkChild (recordingPath sample_iso) false)).
      reflexivity.
    + apply (Hset 0%nat 1000 frame (mkChild (recordingPath sample_iso) false));
        reflexivity.
  - destruct (currentFile_set_at_live_transition w' (EvData 1 8000 frame))
      as (_ & Hspawn & _ & _ & _ & _ & Hsession).
    split; [|split; [reflexivity|]].
    + apply (Hspawn (reachable_run _ _ (reachable_boot [] sample_iso)) 1%nat
               (mkChild (recordingPath sample_iso') false)).
      reflexivity.
    + apply (Hsession 1%nat (mkChild (recordingPath sample_iso') false)
               [EvGetStats 7000] 8000 frame [EvData 1 9000 frame; EvStop]);
        reflexivity.
Defined.

(** ** The string tests mean what their names say *)

Lemma append_nil (t : string) : "" +:+ t = t.
Proof. reflexivity. Qed.

Lemma append_cons (c : ascii) (s t : string) :
  String c s +:+ t = String c (s +:+ t).
Proof. reflexivity. Qed.

Lemma prefix_spec (sub s : string) :
  String.prefix sub s = true <-> exists b, s = sub +:+ b.
Proof.
  revert s. induction sub as [|a sub IH]; intros s.
  - destruct s; simpl; split; eauto.
  - destruct s as [|b s]; simpl; [split; [discriminate|intros [? [=]]]|].
    destruct (ascii_dec a b) as [->|Hne].
    + rewrite IH. split; intros [t Ht]; exists t;
        rewrite append_cons in *; congruence.
    + split; [discriminate|]. intros [t Ht].
      rewrite append_cons in Ht. congruence.
Qed.

Lemma includes_nil (sub : string) :
  Str.includes sub "" = String.prefix sub "" || false.
Proof. reflexivity. Qed.

Lemma includes_cons (sub : string) (c : ascii) (s : string) :
  Str.includes sub (String c s) =
    String.prefix sub (String c s) || Str.includes sub s.
Proof. reflexivity. Qed.

Lemma includes_spec (sub s : string) :
  Str.includes sub s = true <-> exists a b, s = a +:+ sub +:+ b.
Proof.
  split.
  - induction s as [|c s IH].
    + rewrite includes_nil, orb_true_iff.
      intros [[b Hb]%prefix_spec | [=]]. exists "", b. exact Hb.
    + rewrite includes_cons, orb_true_iff.
      intros [[b Hb]%prefix_spec | Hin].
      * exists "", b. exact Hb.
      * destruct (IH Hin) as (a & b & ->). exists (String c a), b. reflexivity.
  - intros (a & b & ->). induction a as [|c a IH].
    + rewrite append_nil.
      assert (Hp : String.prefix sub (sub +:+ b) = true)
        by (apply prefix_spec; eauto).
      destruct (sub +:+ b);
        rewrite ?includes_nil, ?includes_cons, Hp; reflexivity.
    + rewrite append_cons, includes_cons, IH. apply orb_true_r.
Qed.

Lemma substring_all (s : string) :
  String.substring 0 (String.length s) s = s.
Proof. induction s as [|c s IH]; simpl; congruence. Qed.

Lemma substring_skip (a s : string) (m : nat) :
  String.substring (String.length a) m (a +:+ s) = String.substring 0 m s.
Proof.
  induction a as [|c a IH]; [reflexivity|].
  rewrite append_cons. simpl. exact IH.
Qed.

Lemma length_append (a b : string) :
  String.length (a +:+ b) = (String.length a + String.length b)%nat.
Proof.
  induction a as [|c a IH]; [reflexivity|].
  rewrite append_cons. simpl. congruence.
Qed.

Lemma substring_split (s : string) (n m : nat) :
  (n + m)%nat = String.length s ->
  s = String.substring 0 n s +:+ String.substring n m s.
Proof.
  revert n. induction s as [|c s IH]; intros [|n] H; simpl in *.
  - destruct m; [reflexivity|discriminate].
  - discriminate.
  - destruct m as [|m]; [discriminate|]. injection H as H.
    rewrite append_nil, H, substring_all. reflexivity.
  - injection H as H. rewrite append_cons. f_equal. apply IH, H.
Qed.

Lemma endsWith_spec (suf s : string) :
  Str.endsWith suf s = true <-> exists a, s = a +:+ suf.
Proof.
  unfold Str.endsWith. rewrite andb_true_iff, Nat.leb_le, String.eqb_eq.
  split.
  - intros [Hle Hsub].
    exists (String.substring 0 (String.length s - String.length suf) s).
    pose proof (substring_split s (String.length s - String.length suf)
                  (String.length suf)) as Hs.
    rewrite Hsub in Hs. apply Hs. lia.
  - intros [a ->]. rewrite length_append. split; [lia|].
    replace (String.length a + String.length suf - String.length suf)%nat
      with (String.length a) by lia.
    rewrite substring_skip. apply substring_all.
Qed.

(** Line 39 selects the names that end in ".ts" or in ".m3u8". *)
Lemma isHLSFile_spec (file : string) :
  isHLSFile file = true <->
  (exists a, file = a +:+ ".ts") \/ (exists a, file = a +:+ ".m3u8").
Proof.
  unfold isHLSFile. rewrite orb_true_iff, !endsWith_spec. reflexivity.
Qed.

(** A chunk has a progress marker when "frame=" or "time=" occurs in it. *)
Lemma hasProgress_spec (output : string) :
  hasProgress output = true <->
  (exists a b, output = a +:+ "frame=" +:+ b) \/
  (exists a b, output = a +:+ "time=" +:+ b).
Proof.
  unfold hasProgress. rewrite orb_true_iff, !includes_spec. reflexivity.
Qed.

Lemma hasError_spec (output : string) :
  hasError output = true <->
  (exists a b, output = a +:+ "error" +:+ b) \/
  (exists a b, output = a +:+ "Error" +:+ b).
Proof.
  unfold hasError. rewrite orb_true_iff, !includes_spec. reflexivity.
Qed.

(** ** C9: a progress marker wins over an error marker *)

(** A chunk with both markers, in a session that is not live: it is taken
    as progress, the session goes live and nothing is logged as an error. *)
Example mixed_chunk_goes_live :
  let w := boot [] sample_iso in
  let x := "frame=  10 fps=0.0 Error while decoding stream #0:0" in
  let w' := step w (EvData 0 1000 x) in
  (hasProgress x = true /\ hasError x = true) /\
  stats w' = mkStats (Some 1000) true (Some (recordingPath sample_iso)) /\
  effects w' =
    effects w ++
    [Log (MProgress x); Log MStreamStarted;
     Log (MRecording (recordingPath sample_iso)); Log MWatchLive] /\
  count is_error_line (effects w') = 0%nat.
Proof. vm_compute. auto 10. Qed.

(** C9.  A chunk with "frame=" or "time=" is handled as progress whether
    or not it also has "error" or "Error": it is written as progress, it
    takes a session that is not live to live, and it is not logged as an
    error.  The handler logs a chunk as an error exactly when the chunk has
    an error marker and no progress marker. *)
Theorem progress_marker_wins (c : child) (now : Z) (output : string) (w : world) :
  let w' := on_data c now output w in
  (hasProgress output = true ->
     (exists rest, effects w' = effects w ++ Log (MProgress output) :: rest) /\
     count is_error_line (effects w') = count is_error_line (effects w) /\
     (isLive (stats w) = false ->
        stats w' = mkStats (Some now) true (Some (outputFile c)) /\
        count is_stream_started (effects w') =
          S (count is_stream_started (effects w)))) /\
  (count is_error_line (effects w') = S (count is_error_line (effects w)) <->
   hasError output = true /\ hasProgress output = false) /\
  (hasError output = true -> hasProgress output = false ->
     effects w' = effects w ++ [Log (MErrorLine output)] /\ stats w' = stats w).
Proof.
  intros w'. subst w'.
  rewrite on_data_stats, on_data_effects, !count_app.
  destruct (hasProgress output) eqn:Hp; simpl.
  - split; [intros _|split].
    + split; [eauto|]. split.
      * destruct (negb (isLive (stats w))); unfold count; simpl; lia.
      * intros ->. simpl. split; [reflexivity|]. unfold count; simpl; lia.
    + split; [|intros [_ [=]]].
      destruct (negb (isLive (stats w))); unfold count; simpl; lia.
    + intros _ [=].
  - split; [intros [=]|]. destruct (hasError output) eqn:He.
    + split; [|auto]. unfold count; simpl. split; [auto|lia].
    + split; [|intros [=]]. unfold count; simpl.
      split; [lia|intros [[=] _]].
Qed.

(** ** C10: getStats only reads *)

(** C10.  [getStats] returns the state it was given: the statistics, the
    handle and everything else are untouched, so the event loop is in the
    same state after serving the request.  The snapshot shows the live flag
    and the recording path of the statistics, and a second call, at whatever
    time, shows the same two values. *)
Theorem getStats_reads_only (now now' : Z) (w : world) :
  snd (getStats now w) = w /\
  step w (EvGetStats now) = w /\
  (snap_isLive (fst (getStats now w)) = isLive (stats w) /\
   snap_currentFile (fst (getStats now w)) = currentFile (stats w) /\
   snap_startTime (fst (getStats now w)) = startTime (stats w)) /\
  (snap_isLive (fst (getStats now' (snd (getStats now w)))) =
     snap_isLive (fst (getStats now w)) /\
   snap_currentFile (fst (getStats now' (snd (getStats now w)))) =
     snap_currentFile (fst (getStats now w))).
Proof.
  split; [reflexivity|]. split; [|split; repeat split; reflexivity].
  unfold step. destruct (halted w); reflexivity.
Qed.

(** The uptime of a snapshot: the time since the recorded start, also when
    the session is no longer live; 0 before the first live session. *)
Lemma getStats_uptime (now : Z) (w : world) :
  uptime (fst (getStats now w)) =
    match startTime (stats w) with
    | Some t => if (t =? 0)%Z then 0 else now - t
    | None => 0
    end.
Proof. reflexivity. Qed.

(** * Further properties of the supervisor *)

(** ** The lineage of engines *)

Lemma lineage_listening (w : world) (cs : list child) (c : child) :
  children w = cs ++ [c] ->
  Forall (fun x => closed x = true) cs ->
  forall pid c', listening pid w = Some c' ->
  pid = length cs /\ c' = c /\ closed c = false.
Proof.
  intros Hcs Hall pid c' [Hl Hc]%listening_Some.
  rewrite Hcs in Hl. apply lookup_snoc_Some in Hl as [[_ Hl] | [-> ->]].
  - rewrite Forall_forall in Hall.
    assert (closed c' = true) by (apply Hall, list_elem_of_lookup; eauto).
    congruence.
  - auto.
Qed.

Lemma lineage_reachable (w : world) : reachable w -> lineage w.
Proof.
  revert w. apply (reachable_ind lineage).
  - intros disk iso. exists [], (mkChild (recordingPath iso) false).
    unfold boot.
    destruct (start_frame iso (constructed disk)) as (-> & -> & -> & -> & _).
    simpl. auto 10.
  - intros w ev _ (cs & c & Hcs & Hall & Hlast & Hh).
    destruct (halted w) eqn:Hhalt.
    { replace (step w ev) with w by (unfold step; rewrite Hhalt; reflexivity).
      exists cs, c. auto. }
    unfold lineage. rewrite step_stats, Hhalt. unfold step. rewrite Hhalt.
    destruct ev as [pid now output|pid code|pid err|iso|d|now| |sg].
    + destruct (listening pid w) as [c'|] eqn:Hl; [|exists cs, c; auto].
      destruct (lineage_listening w cs c Hcs Hall pid c' Hl) as (-> & -> & Hc).
      destruct (on_data_frame c now output w) as (-> & -> & -> & _).
      exists cs, c. repeat split; try assumption.
      destruct Hlast as [[_ Ht] | [Hc' _]]; [left; auto|congruence].
    + destruct (listening pid w) as [c'|] eqn:Hl; [|exists cs, c; auto].
      destruct (lineage_listening w cs c Hcs Hall pid c' Hl) as (-> & -> & Hc).
      destruct (on_close_frame code
        (set_children (<[length cs:=mkChild (outputFile c) true]> (children w)) w))
        as (-> & _ & -> & -> & _).
      exists cs, (mkChild (outputFile c) true).
      destruct Hlast as [[_ Ht] | [Hc' _]]; [|congruence].
      destruct w; simpl in *. subst.
      replace (length cs) with (length cs + 0)%nat at 1 by lia.
      rewrite insert_app_r. simpl. auto 10.
    + destruct (listening pid w); exists cs, c; [destruct w|]; auto.
    + destruct (timers w) as [|t rest] eqn:Ht; [exists cs, c; rewrite Ht; auto|].
      destruct Hlast as [[_ [=]] | (Hc & [= -> ->] & Hidle)].
      unfold on_timeout.
      destruct (start_frame iso (say MRestarting (set_timers [] w)))
        as (-> & _ & -> & -> & _).
      exists (cs ++ [c]), (mkChild (recordingPath iso) false).
      destruct w; simpl in *. subst. repeat split.
      * apply Forall_app. split; [assumption|]. constructor; [assumption|constructor].
      * left. auto.
      * right. reflexivity.
    + exists cs, c. destruct w; auto.
    + exists cs, c. auto.
    + destruct (stop_frame w) as (-> & _ & -> & -> & _). exists cs, c. auto.
    + exists cs, c. unfold on_signal.
      set (w0 := match sg with SIGINT => say MShuttingDown w | SIGTERM => w end).
      assert (H0 : children w0 = children w /\ timers w0 = timers w).
      { subst w0. destruct sg, w; auto. }
      destruct H0 as [Hc0 Ht0].
      destruct (stop_frame w0) as (Hp & _ & Hc1 & Ht1 & _).
      simpl. rewrite Hp, Hc1, Ht1, Hc0, Ht0. auto.
Qed.

(** X1.  One engine at a time.  In every reachable state at most one child
    still has its handlers called, and it is the child spawned last; while
    it runs no restart is pending.  While a restart is pending there is
    exactly one timer, no child runs, and the session is not live. *)
Theorem one_engine_at_a_time (w : world) :
  reachable w ->
  (forall p q c c',
     listening p w = Some c -> listening q w = Some c' -> p = q /\ c = c') /\
  (forall p c,
     listening p w = Some c -> timers w = [] /\ S p = length (children w)) /\
  (timers w <> [] ->
     timers w = [restartDelay] /\ (forall p, listening p w = None) /\
     isLive (stats w) = false).
Proof.
  intros (cs & c & Hcs & Hall & Hlast & _)%lineage_reachable.
  pose proof (lineage_listening w cs c Hcs Hall) as Hone.
  split; [|split].
  - intros p q c1 c2 Hp Hq.
    destruct (Hone p c1 Hp) as (-> & -> & _).
    destruct (Hone q c2 Hq) as (-> & -> & _). auto.
  - intros p c1 Hp. destruct (Hone p c1 Hp) as (-> & -> & Hc).
    destruct Hlast as [[_ Ht] | [Hc' _]]; [|congruence].
    rewrite Hcs, length_app. simpl. split; [exact Ht|lia].
  - intros Ht. destruct Hlast as [[_ Ht'] | (Hc & Ht' & Hidle)]; [contradiction|].
    split; [exact Ht'|]. split; [|exact Hidle].
    intros p. destruct (listening p w) as [c1|] eqn:Hp; [|reflexivity].
    destruct (Hone p c1 Hp) as (_ & _ & Hc'). congruence.
Qed.

Lemma one_engine_at_a_time_witness :
  let w := run [EvData 0 1000 "frame=   25"; EvClose 0 0]
               (boot mixed_dir sample_iso) in
  (forall p q c c',
     listening p w = Some c -> listening q w = Some c' -> p = q /\ c = c') /\
  (forall p c,
     listening p w = Some c -> timers w = [] /\ S p = length (children w)) /\
  (timers w <> [] ->
     timers w = [restartDelay] /\ (forall p, listening p w = None) /\
     isLive (stats w) = false).
Proof.
  apply one_engine_at_a_time.
  exists mixed_dir, sample_iso, [EvData 0 1000 "frame=   25"; EvClose 0 0].
  reflexivity.
Defined.

(** X2.  The handle is the latest engine.  Whenever [this.ffmpegProcess]
    holds a handle in a reachable state, it is the child spawned last: a
    [stop()] never signals an older engine. *)
Theorem handle_is_latest_engine (w : world) (pid : nat) :
  reachable w ->
  ffmpegProcess w = Some pid ->
  S pid = length (children w) /\
  forall iso, ffmpegProcess (start iso w) = Some (S pid).
Proof.
  intros (cs & c & Hcs & _ & _ & Hh)%lineage_reachable Hp.
  destruct Hh as [Hh | Hh]; [congruence|].
  assert (pid = length cs) by congruence. subst pid.
  assert (Hlen : S (length cs) = length (children w))
    by (rewrite Hcs, length_app; simpl; lia).
  split; [exact Hlen|].
  intros iso. destruct (start_frame iso w) as (-> & _). congruence.
Qed.

Lemma handle_is_latest_engine_witness :
  let w := run [EvClose 0 1; EvTimer sample_iso'] (boot [] sample_iso) in
  S 1 = length (children w) /\
  forall iso, ffmpegProcess (start iso w) = Some 2%nat.
Proof.
  apply (handle_is_latest_engine
           (run [EvClose 0 1; EvTimer sample_iso'] (boot [] sample_iso)) 1%nat).
  - exists [], sample_iso, [EvClose 0 1; EvTimer sample_iso']. reflexivity.
  - reflexivity.
Defined.

(** ** Counting spawns and restarts *)

(** What one turn of the event loop adds: a child and a spawn when a timer
    fires, a restart timer when a running child closes. *)
Lemma step_tally (w : world) (ev : event) :
  let fired :=
    match ev with
    | EvTimer _ => if halted w then 0%nat
                   else match timers w with [] => 0%nat | _ => 1%nat end
    | _ => 0%nat
    end in
  let ended :=
    match ev with
    | EvClose pid _ =>
        match (if halted w then None else listening pid w) with
        | Some _ => 1%nat
        | None => 0%nat
        end
    | _ => 0%nat
    end in
  length (children (step w ev)) = (length (children w) + fired)%nat /\
  spawns (step w ev) = (spawns w + fired)%nat /\
  count is_set_timeout (effects (step w ev)) =
    (count is_set_timeout (effects w) + ended)%nat /\
  (length (running (step w ev)) + ended)%nat =
    (length (running w) + fired)%nat.
Proof.
  cbv zeta. unfold step, spawns, running.
  destruct (halted w) eqn:Hh; [destruct ev; simpl; repeat split; lia|].
  assert (Hsaved : forall f, count is_spawn (savedLog f) = 0%nat /\
                             count is_set_timeout (savedLog f) = 0%nat).
  { intros [f|]; simpl; [destruct (negb (String.eqb f ""))|]; auto. }
  destruct ev as [pid now output|pid code|pid err|iso|d|now| |sg].
  - destruct (listening pid w) as [c|]; [|repeat split; lia].
    destruct (on_data_frame c now output w) as (_ & -> & _).
    rewrite on_data_effects, !count_app.
    assert (Hz : forall p, (p = is_spawn \/ p = is_set_timeout) ->
      count p (if hasProgress output
               then Log (MProgress output) ::
                    (if negb (isLive (stats w))
                     then [Log MStreamStarted; Log (MRecording (outputFile c));
                           Log MWatchLive]
                     else [])
               else if hasError output then [Log (MErrorLine output)] else [])
      = 0%nat).
    { intros p [-> | ->]; destruct (hasProgress output);
        [destruct (negb (isLive (stats w)))|destruct (hasError output)| 
         destruct (negb (isLive (stats w)))|destruct (hasError output)];
        reflexivity. }
    rewrite !Hz by auto. repeat split; lia.
  - destruct (listening pid w) as [c|] eqn:Hl; [|repeat split; lia].
    set (w1 := set_children _ w).
    rewrite on_close_effects, !count_app.
    destruct (Hsaved (currentFile (stats w1))) as [-> ->].
    destruct (clearLog_counts (hls w1)) as (-> & _ & -> & _).
    destruct (on_close_frame code w1) as (_ & _ & -> & _).
    apply listening_Some in Hl as [Hl Hc].
    pose proof (close_one_running _ _ _ (outputFile c) Hl Hc) as Hone.
    subst w1. destruct w; simpl in *. rewrite length_insert, !count_one. simpl.
    repeat split; lia.
  - destruct (listening pid w); [|repeat split; lia].
    destruct w; simpl. rewrite !count_app, !count_one. simpl. repeat split; lia.
  - destruct (timers w) as [|t rest]; [repeat split; lia|].
    unfold on_timeout.
    set (w1 := say MRestarting (set_timers rest w)).
    rewrite start_effects, !count_app.
    destruct (clearLog_counts (hls w1)) as (-> & _ & -> & _).
    destruct (start_frame iso w1) as (_ & _ & -> & _).
    subst w1. destruct w; simpl.
    rewrite !count_app, !count_one, List.filter_app, !length_app.
    unfold count; simpl. repeat split; lia.
  - destruct w; simpl. repeat split; lia.
  - simpl. repeat split; lia.
  - rewrite stop_effects, !count_app.
    destruct (clearLog_counts (hls w)) as (-> & _ & -> & _).
    destruct (stop_frame w) as (_ & _ & -> & _).
    destruct (ffmpegProcess w); rewrite ?count_one; simpl; repeat split; lia.
  - unfold on_signal. simpl.
    set (w0 := match sg with SIGINT => say MShuttingDown w | SIGTERM => w end).
    rewrite !count_app, !count_one, stop_effects, !count_app.
    destruct (clearLog_counts (hls w0)) as (-> & _ & -> & _).
    destruct (stop_frame w0) as (_ & _ & -> & _).
    assert (H0 : children w0 = children w /\
                 count is_spawn (effects w0) = count is_spawn (effects w) /\
                 count is_set_timeout (effects w0) =
                   count is_set_timeout (effects w)).
    { subst w0. destruct sg, w; simpl; rewrite ?count_app, ?count_one; simpl;
        repeat split; lia. }
    destruct H0 as (-> & -> & ->).
    destruct (ffmpegProcess w0); rewrite ?count_one; simpl; repeat split; lia.
Qed.

Lemma running_exited (cs : list child) :
  (length (List.filter (fun c => negb (closed c)) cs) +
   length (List.filter closed cs))%nat = length cs.
Proof.
  induction cs as [|c cs IH]; simpl; [reflexivity|].
  destruct (closed c); simpl; lia.
Qed.

(** X3.  Every restart is paid for by an exit.  In every reachable state the
    engines spawned so far are the children; one restart timer was set per
    exited child, none otherwise; and the spawns so far, plus the restart
    still pending, are one more than the timers set: the first spawn is the
    only one that no engine exit caused. *)
Theorem restarts_follow_exits (w : world) :
  reachable w ->
  spawns w = length (children w) /\
  count is_set_timeout (effects w) = length (exited w) /\
  (spawns w + length (timers w))%nat = S (count is_set_timeout (effects w)).
Proof.
  intros Hr.
  assert (Hinv : spawns w = length (children w) /\
                 (count is_set_timeout (effects w) + length (running w))%nat =
                   length (children w)).
  { revert w Hr.
    apply (reachable_ind (fun w =>
      spawns w = length (children w) /\
      (count is_set_timeout (effects w) + length (running w))%nat =
        length (children w))).
    - intros disk iso. unfold boot, running.
      rewrite start_spawns.
      destruct (start_frame iso (constructed disk)) as (_ & _ & Hc & _).
      rewrite start_effects, !count_app, Hc.
      destruct (clearLog_counts (hls (constructed disk))) as (_ & _ & -> & _).
      simpl. unfold count; simpl. auto.
    - intros w0 ev _ [Hs Hb].
      destruct (step_tally w0 ev) as (Hlen & Hsp & Hto & Hrun).
      cbv zeta in *. split; lia. }
  destruct Hinv as [Hs Hb].
  destruct (single_flow_reachable w Hr) as [Hflow _].
  pose proof (running_exited (children w)) as Hpart.
  unfold running, exited in *. repeat split; lia.
Qed.

Lemma restarts_follow_exits_witness :
  let w := run [EvClose 0 1; EvTimer sample_iso'; EvStop; EvClose 1 255]
               (boot stuck_dir sample_iso) in
  spawns w = length (children w) /\
  count is_set_timeout (effects w) = length (exited w) /\
  (spawns w + length (timers w))%nat = S (count is_set_timeout (effects w)).
Proof.
  apply restarts_follow_exits.
  exists stuck_dir, sample_iso,
    [EvClose 0 1; EvTimer sample_iso'; EvStop; EvClose 1 255].
  reflexivity.
Defined.

(** ** What the cleanup removes *)

Lemma unlinkEach_sublist (files : list entry) :
  kept (unlinkEach files) `sublist_of` files.
Proof.
  induction files as [|e rest IH]; simpl; [constructor|].
  destruct (isHLSFile (name e)); [destruct (unlinkable e)|]; simpl.
  - apply sublist_cons. exact IH.
  - reflexivity.
  - apply sublist_skip. exact IH.
Qed.

Lemma others_clean (files : list entry) :
  forallb (fun e => negb (isHLSFile (name e))) (others files) = true.
Proof.
  unfold others. induction files as [|e rest IH]; simpl; [reflexivity|].
  destruct (isHLSFile (name e)) eqn:Hm; simpl; [exact IH|].
  rewrite Hm. exact IH.
Qed.

(** The buffer directory after one turn of the event loop: as it was, as
    the environment set it, or swept by [clearHLSBuffer]. *)
Lemma step_hls (w : world) (ev : event) :
  (forall d, ev <> EvDisk d) ->
  hls (step w ev) = hls w \/ hls (step w ev) = clearDisk (hls w).
Proof.
  intros Hnd. unfold step. destruct (halted w); [left; reflexivity|].
  destruct ev as [pid now output|pid code|pid err|iso|d|now| |sg].
  - destruct (listening pid w) as [c|]; [|left; reflexivity].
    left. apply on_data_frame.
  - destruct (listening pid w) as [c|]; [|left; reflexivity].
    right.
    destruct (on_close_frame code
      (set_children (<[pid:=mkChild (outputFile c) true]> (children w)) w))
      as (_ & _ & _ & _ & _ & ->).
    destruct w; reflexivity.
  - destruct (listening pid w); left; [destruct w|]; reflexivity.
  - destruct (timers w) as [|t rest]; [left; reflexivity|].
    right. unfold on_timeout.
    destruct (start_frame iso (say MRestarting (set_timers rest w)))
      as (_ & _ & _ & _ & _ & ->).
    destruct w; reflexivity.
  - destruct (Hnd d). reflexivity.
  - left. reflexivity.
  - right. apply stop_frame.
  - right. unfold on_signal. simpl.
    destruct (stop_frame (match sg with
                          | SIGINT => say MShuttingDown w
                          | SIGTERM => w
                          end)) as (_ & _ & _ & _ & _ & ->).
    destruct sg, w; reflexivity.
Qed.

(** X4.  The supervisor never removes a foreign file.  Whatever the handler
    that runs, the entries of the buffer directory whose names end neither
    in ".ts" nor in ".m3u8" are afterwards the ones that were there, in the
    same order, and nothing is added: what is left is a sublist of what was
    there. *)
Theorem foreign_files_survive (w : world) (ev : event) :
  (forall d, ev <> EvDisk d) ->
  others <$> hls (step w ev) = others <$> hls w /\
  match hls (step w ev), hls w with
  | Some after, Some before => after `sublist_of` before
  | None, None => True
  | _, _ => False
  end.
Proof.
  intros Hnd.
  destruct (step_hls w ev Hnd) as [-> | ->].
  - split; [reflexivity|]. destruct (hls w); [reflexivity|exact I].
  - destruct (hls w) as [files|]; simpl; [|auto].
    split; [f_equal; apply unlinkEach_others|apply unlinkEach_sublist].
Qed.

Lemma foreign_files_survive_witness :
  let w := boot mixed_dir sample_iso in
  let ev := EvClose 0 0 in
  others <$> hls (step w ev) = others <$> hls w /\
  match hls (step w ev), hls w with
  | Some after, Some before => after `sublist_of` before
  | None, None => True
  | _, _ => False
  end.
Proof.
  apply (foreign_files_survive (boot mixed_dir sample_iso) (EvClose 0 0)).
  intros d. discriminate.
Defined.

(** X5.  A cleanup that meets no failure leaves no stream file.  When the
    directory can be read and every ".ts" and ".m3u8" entry can be unlinked,
    then after [start], after [stop] and after the [close] handler the
    directory holds exactly the other entries: the engine is spawned over an
    empty buffer, and none is left behind when a stream ends. *)
Theorem no_stream_file_after_cleanup (w : world) (files : list entry) :
  hls w = Some files ->
  deletable files = true ->
  (forall iso, hls (start iso w) = Some (others files)) /\
  hls (stop w) = Some (others files) /\
  (forall code, hls (on_close code w) = Some (others files)) /\
  forallb (fun e => negb (isHLSFile (name e))) (others files) = true.
Proof.
  intros Hd Hall.
  assert (Hc : clearDisk (hls w) = Some (others files)).
  { rewrite Hd. simpl. rewrite (unlinkEach_deletable _ Hall). reflexivity. }
  split; [|split; [|split]].
  - intros iso. destruct (start_frame iso w) as (_ & _ & _ & _ & _ & ->). exact Hc.
  - destruct (stop_frame w) as (_ & _ & _ & _ & _ & ->). exact Hc.
  - intros code. destruct (on_close_frame code w) as (_ & _ & _ & _ & _ & ->).
    exact Hc.
  - apply others_clean.
Qed.

Lemma no_stream_file_after_cleanup_witness :
  let files := [mkEntry "segment007.ts" true; mkEntry "README" true;
                mkEntry "stream.m3u8" true; mkEntry "segment008.ts" true] in
  let w := constructed files in
  (forall iso, hls (start iso w) = Some (others files)) /\
  hls (stop w) = Some (others files) /\
  (forall code, hls (on_close code w) = Some (others files)) /\
  forallb (fun e => negb (isHLSFile (name e))) (others files) = true.
Proof.
  apply no_stream_file_after_cleanup.
  - reflexivity.
  - reflexivity.
Defined.

(** ** stop() outside the signal handlers *)

(** X6.  [stop()] does not end the loop.  Called while an engine runs, it
    sends that engine one SIGTERM and drops the handle; the engine's
    handlers stay.  When the engine then closes, the restart timer is set as
    after any exit, and when it fires the next engine is spawned and its
    handle is held again. *)
Theorem stop_then_exit_restarts
    (w : world) (pid : nat) (c : child) (code : Z) (iso : string) :
  reachable w ->
  halted w = false ->
  ffmpegProcess w = Some pid ->
  listening pid w = Some c ->
  let w1 := step w EvStop in
  let w2 := step w1 (EvClose pid code) in
  let w3 := step w2 (EvTimer iso) in
  (effects w1 = effects w ++ [Kill pid] ++ clearLog (hls w) /\
   ffmpegProcess w1 = None /\ listening pid w1 = Some c) /\
  (ffmpegProcess w2 = None /\ timers w2 = [restartDelay]) /\
  (spawns w3 = S (spawns w) /\ ffmpegProcess w3 = Some (S pid) /\
   listening (S pid) w3 = Some (mkChild (recordingPath iso) false) /\
   timers w3 = []).
Proof.
  intros Hr Hh Hp Hl w1 w2 w3.
  assert (Hrun : timers w = [] /\ S pid = length (children w)).
  { destruct (lineage_reachable w Hr) as (cs & c0 & Hcs & Hall & Hlast & _).
    destruct (lineage_listening w cs c0 Hcs Hall pid c Hl) as (-> & -> & Hc).
    destruct Hlast as [[_ Ht] | [Hc' _]]; [|congruence].
    rewrite Hcs, length_app. simpl. split; [exact Ht|lia]. }
  destruct Hrun as [Ht Hlen].
  assert (Hw1 : w1 = stop w) by (subst w1; unfold step; rewrite Hh; reflexivity).
  destruct (stop_frame w) as (Hp1 & Hs1 & Hc1 & Ht1 & Hh1 & Hd1).
  rewrite <- Hw1 in Hp1, Hs1, Hc1, Ht1, Hh1, Hd1.
  assert (He1 : effects w1 = effects w ++ [Kill pid] ++ clearLog (hls w)).
  { rewrite Hw1, stop_effects, Hp. reflexivity. }
  assert (Hl1 : listening pid w1 = Some c)
    by (unfold listening; rewrite Hc1; exact Hl).
  assert (Hh1' : halted w1 = false) by congruence.
  destruct (step_close w1 pid c code Hh1' Hl1)
    as (He2 & _ & _ & Ht2 & Hc2 & Hp2 & Hh2).
  fold w2 in He2, Ht2, Hc2, Hp2, Hh2.
  rewrite Ht1, Ht in Ht2. simpl in Ht2.
  assert (Hsp2 : spawns w2 = spawns w).
  { unfold spawns. rewrite He2, He1, !count_app.
    destruct (clearLog_counts (hls w)) as (-> & _).
    destruct (clearLog_counts (hls w1)) as (-> & _).
    rewrite !count_one. simpl.
    destruct (currentFile (stats w1)) as [f|]; simpl;
      [destruct (negb (String.eqb f ""))|]; rewrite ?count_one; simpl; lia. }
  assert (Hw3 : w3 = on_timeout iso (set_timers [] w2)).
  { subst w3. unfold step. rewrite Hh2, Ht2. reflexivity. }
  split; [auto|]. split; [split; [congruence|exact Ht2]|].
  split.
  { rewrite <- Hsp2. apply step_timer_spawns; [exact Hh2|].
    rewrite Ht2. discriminate. }
  rewrite Hw3. unfold on_timeout.
  set (w2' := say MRestarting (set_timers [] w2)).
  assert (Hc2' : children w2' = children w2) by (subst w2'; destruct w2; reflexivity).
  assert (Hlen2 : length (children w2) = S pid).
  { rewrite Hc2, length_insert, Hc1. lia. }
  destruct (start_frame iso w2') as (Hp3 & _ & Hc3 & Ht3 & _).
  split; [rewrite Hp3, Hc2', Hlen2; reflexivity|].
  split.
  - unfold listening. rewrite Hc3, Hc2'.
    rewrite lookup_app_r by lia.
    rewrite Hlen2, Nat.sub_diag. reflexivity.
  - rewrite Ht3. subst w2'. destruct w2; reflexivity.
Qed.

Lemma stop_then_exit_restarts_witness :
  let w := step (boot [] sample_iso) (EvData 0 1000 "frame=   25") in
  let w1 := step w EvStop in
  let w2 := step w1 (EvClose 0 143) in
  let w3 := step w2 (EvTimer sample_iso') in
  (effects w1 = effects w ++ [Kill 0] ++ clearLog (hls w) /\
   ffmpegProcess w1 = None /\
   listening 0 w1 = Some (mkChild (recordingPath sample_iso) false)) /\
  (ffmpegProcess w2 = None /\ timers w2 = [restartDelay]) /\
  (spawns w3 = S (spawns w) /\ ffmpegProcess w3 = Some 1%nat /\
   listening 1 w3 = Some (mkChild (recordingPath sample_iso') false) /\
   timers w3 = []).
Proof.
  apply (stop_then_exit_restarts
           (step (boot [] sample_iso) (EvData 0 1000 "frame=   25")) 0%nat
           (mkChild (recordingPath sample_iso) false) 143 sample_iso').
  - exists [], sample_iso, [EvData 0 1000 "frame=   25"]. reflexivity.
  - reflexivity.
  - reflexivity.
  - reflexivity.
Defined.

(** ** The recording file name *)

Lemma includes_char_cons (a c : ascii) (s : string) :
  Str.includes (String a "") (String c s) =
    Ascii.eqb a c || Str.includes (String a "") s.
Proof.
  rewrite includes_cons. f_equal. simpl.
  destruct (ascii_dec a c) as [->|Hne].
  - rewrite Ascii.eqb_refl. destruct s; reflexivity.
  - apply Ascii.eqb_neq in Hne. rewrite Hne. reflexivity.
Qed.

(** X7.  The time stamp of a recording name holds no colon and no dot.
    The replacement of line 56 keeps the length of the stamp, leaves a stamp
    without those characters as it is, and applied twice gives what it gives
    once. *)
Theorem dashed_has_no_colon_or_dot (s : string) :
  String.length (Str.dashed s) = String.length s /\
  Str.includes ":" (Str.dashed s) = false /\
  Str.includes "." (Str.dashed s) = false /\
  Str.dashed (Str.dashed s) = Str.dashed s /\
  (Str.includes ":" s = false -> Str.includes "." s = false ->
   Str.dashed s = s).
Proof.
  induction s as [|c s (Hlen & Hcolon & Hdot & Hidem & Hid)].
  - repeat split; reflexivity.
  - cbn [Str.dashed String.length].
    rewrite !includes_char_cons, Hlen, Hcolon, Hdot.
    destruct (Ascii.eqb c ":") eqn:Ec; [|destruct (Ascii.eqb c ".") eqn:Ed];
      cbn [orb]; cbn [Str.dashed]; rewrite ?Ec, ?Ed, Hidem; cbn [orb].
    + repeat split; try reflexivity.
      rewrite Ascii.eqb_sym, Ec. discriminate.
    + repeat split; try reflexivity.
      rewrite (Ascii.eqb_sym ":" c), Ec, (Ascii.eqb_sym "." c), Ed.
      cbn [orb]. intros _ [=].
    + rewrite (Ascii.eqb_sym ":" c), Ec, (Ascii.eqb_sym "." c), Ed. cbn [orb].
      repeat split; try reflexivity.
      intros H1 H2. rewrite Hid by assumption. reflexivity.
Qed.

(** ** Signals sent and files recorded *)

Lemma count_cons (p : effect -> bool) (e : effect) (es : list effect) :
  count p (e :: es) = ((if p e then 1 else 0) + count p es)%nat.
Proof. unfold count. simpl. destruct (p e); reflexivity. Qed.

Lemma clearLog_silent (p : effect -> bool) (d : option (list entry)) :
  silent p -> count p (clearLog d) = 0%nat.
Proof.
  intros [Hlog Hun].
  assert (Hs : forall files, count p (swept (unlinkEach files)) = 0%nat).
  { induction files as [|e rest IH]; [reflexivity|]. simpl.
    destruct (isHLSFile (name e)); [destruct (unlinkable e)|]; simpl.
    - change (?a :: ?b :: ?l) with ([a] ++ [b] ++ l).
      rewrite !count_app, !count_one, Hlog, Hun, IH. reflexivity.
    - rewrite count_one, Hun. reflexivity.
    - exact IH. }
  unfold clearLog. change (?a :: ?l) with ([a] ++ l).
  destruct d as [files|]; rewrite !count_app, !count_one, ?Hlog, ?Hs; reflexivity.
Qed.

(** The effects of one turn of the event loop, as far as a count can see
    that is blind to the console and to unlinks: the spawn of a restart,
    the timer of a [close], the signal of a stop, the exit. *)
Lemma step_effects_silent (p : effect -> bool) (w : world) (ev : event) :
  silent p ->
  count p (effects (step w ev)) =
    (count p (effects w) +
     if halted w then 0 else
     match ev with
     | EvClose pid _ =>
         match listening pid w with
         | Some _ => count p [SetTimeout restartDelay]
         | None => 0
         end
     | EvTimer iso =>
         match timers w with
         | _ :: _ => count p [Spawn (length (children w))
                                    (ffmpegArgs (recordingPath iso))]
         | [] => 0
         end
     | EvStop =>
         match ffmpegProcess w with
         | Some pid => count p [Kill pid]
         | None => 0
         end
     | EvSignal _ =>
         match ffmpegProcess w with
         | Some pid => count p [Kill pid]
         | None => 0
         end + count p [Exit 0]
     | _ => 0
     end)%nat.
Proof.
  intros Hp. pose proof Hp as [Hlog Hun].
  unfold step. destruct (halted w) eqn:Hh; [lia|].
  destruct ev as [pid now output|pid code|pid err|iso|d|now| |sg].
  - destruct (listening pid w) as [c|]; [|lia].
    rewrite on_data_effects, count_app.
    destruct (hasProgress output); [destruct (negb (isLive (stats w)))|
                                    destruct (hasError output)];
      rewrite ?count_cons, ?Hlog, ?count_nil; simpl; lia.
  - destruct (listening pid w) as [c|]; [|lia].
    rewrite on_close_effects, !count_app, clearLog_silent by exact Hp.
    rewrite (count_one p (Log _)), Hlog.
    replace (count p (savedLog _)) with 0%nat; [destruct w; simpl; lia|].
    destruct (currentFile _) as [f|]; simpl;
      [destruct (negb (String.eqb f ""))|]; rewrite ?count_one, ?Hlog; reflexivity.
  - destruct (listening pid w); [|lia].
    destruct w; simpl. rewrite count_app, count_one, Hlog. lia.
  - destruct (timers w) as [|t rest]; [lia|].
    unfold on_timeout. rewrite start_effects, !count_app,
      clearLog_silent by exact Hp.
    change ([?a; ?b; ?c]) with ([a] ++ [b] ++ [c]).
    rewrite !count_app, !(count_one p (Log _)), !Hlog.
    destruct w; simpl. rewrite count_app, count_one, Hlog. lia.
  - destruct w; simpl. lia.
  - simpl. lia.
  - rewrite stop_effects, !count_app, clearLog_silent by exact Hp.
    destruct (ffmpegProcess w); simpl; lia.
  - unfold on_signal. simpl.
    rewrite count_app, stop_effects, !count_app, clearLog_silent by exact Hp.
    destruct sg, w; simpl; rewrite ?count_app, ?count_one, ?Hlog;
      destruct ffmpegProcess0; simpl; lia.
Qed.

(** The handle after one turn of the event loop. *)
Lemma step_handle (w : world) (ev : event) :
  ffmpegProcess (step w ev) =
    if halted w then ffmpegProcess w else
    match ev with
    | EvTimer _ =>
        match timers w with
        | [] => ffmpegProcess w
        | _ :: _ => Some (length (children w))
        end
    | EvStop | EvSignal _ => None
    | _ => ffmpegProcess w
    end.
Proof.
  unfold step. destruct (halted w); [reflexivity|].
  destruct ev as [p now output|p code|p err|iso|d|now| |sg].
  - destruct (listening p w) as [c|]; [apply on_data_frame|reflexivity].
  - destruct (listening p w) as [c|]; [|reflexivity].
    destruct (on_close_frame code
      (set_children (<[p:=mkChild (outputFile c) true]> (children w)) w))
      as (-> & _).
    destruct w; reflexivity.
  - destruct (listening p w); [destruct w|]; reflexivity.
  - destruct (timers w) as [|t rest]; [reflexivity|].
    unfold on_timeout.
    destruct (start_frame iso (say MRestarting (set_timers rest w))) as (-> & _).
    destruct w; reflexivity.
  - destruct w; reflexivity.
  - reflexivity.
  - apply stop_frame.
  - unfold on_signal. simpl. apply stop_frame.
Qed.

(** X16.  No engine is signalled twice.  In every reachable state each
    child was sent SIGTERM at most once, a child whose handle is still held
    was not sent any, and none was sent to a child that does not exist. *)
Theorem no_engine_signalled_twice (w : world) (pid : nat) :
  reachable w ->
  (kills pid (effects w) <= 1)%nat /\
  (ffmpegProcess w = Some pid -> kills pid (effects w) = 0%nat) /\
  ((length (children w) <= pid)%nat -> kills pid (effects w) = 0%nat).
Proof.
  revert w.
  set (p := fun e => match e with Kill q => (q =? pid)%nat | _ => false end).
  assert (Hsil : silent p) by (split; reflexivity).
  assert (Hlin : forall w, reachable w ->
            forall q, ffmpegProcess w = Some q -> (q < length (children w))%nat).
  { intros w (cs & c & Hcs & _ & _ & Hh)%lineage_reachable q Hq.
    rewrite Hcs, length_app. simpl.
    destruct Hh as [Hh | Hh]; [congruence|]. assert (q = length cs) by congruence.
    lia. }
  unfold kills. fold p.
  apply (reachable_ind (fun w =>
    (count p (effects w) <= 1)%nat /\
    (ffmpegProcess w = Some pid -> count p (effects w) = 0%nat) /\
    ((length (children w) <= pid)%nat -> count p (effects w) = 0%nat))).
  - intros disk iso. unfold boot.
    rewrite start_effects, !count_app, clearLog_silent by exact Hsil.
    unfold count; simpl. repeat split; lia.
  - intros w ev Hr (Hle & Hheld & Hnone).
    pose proof (Hlin w Hr) as Hlt.
    destruct (step_tally w ev) as (Hlen & _). cbv zeta in Hlen.
    rewrite (step_effects_silent p w ev Hsil), step_handle, Hlen.
    assert (Hkill : forall q, count p [Kill q] = if (q =? pid)%nat then 1%nat else 0%nat)
      by (intros q; rewrite count_one; reflexivity).
    assert (Hsame : (count p (effects w) + 0 <= 1)%nat /\
                    (ffmpegProcess w = Some pid ->
                     (count p (effects w) + 0)%nat = 0%nat) /\
                    ((length (children w) + 0 <= pid)%nat ->
                     (count p (effects w) + 0)%nat = 0%nat))
      by (rewrite !Nat.add_0_r; auto).
    assert (Hgone : (count p (effects w) + 0 <= 1)%nat /\
                    (None = Some pid -> (count p (effects w) + 0)%nat = 0%nat) /\
                    ((length (children w) + 0 <= pid)%nat ->
                     (count p (effects w) + 0)%nat = 0%nat))
      by (rewrite !Nat.add_0_r; split; [exact Hle|split; [discriminate|exact Hnone]]).
    destruct (halted w); cbv iota; [destruct ev; exact Hsame|].
    destruct ev as [q now output|q code|q err|iso|d|now| |sg]; cbv iota beta.
    + exact Hsame.
    + destruct (listening q w); [|exact Hsame].
      rewrite count_one. exact Hsame.
    + exact Hsame.
    + destruct (timers w) as [|t rest]; [exact Hsame|].
      rewrite count_one. change (if p (Spawn _ _) then _ else _) with 0%nat.
      rewrite Nat.add_0_r.
      split; [exact Hle|]. split.
      * intros [= <-]. apply Hnone. lia.
      * intros Hge. apply Hnone. lia.
    + exact Hsame.
    + exact Hsame.
    + destruct (ffmpegProcess w) as [q|] eqn:Hq; [|exact Hgone].
      rewrite Hkill. destruct (q =? pid)%nat eqn:E; [|exact Hgone].
      apply Nat.eqb_eq in E. subst q. rewrite (Hheld eq_refl).
      split; [lia|]. split; [discriminate|].
      intros Hge. specialize (Hlt pid eq_refl). lia.
    + rewrite (count_one p (Exit 0)).
      change (if p (Exit 0) then _ else _) with 0%nat. rewrite (Nat.add_0_r (match _ with Some _ => _ | None => _ end)).
      destruct (ffmpegProcess w) as [q|] eqn:Hq; [|exact Hgone].
      rewrite Hkill. destruct (q =? pid)%nat eqn:E; [|exact Hgone].
      apply Nat.eqb_eq in E. subst q. rewrite (Hheld eq_refl).
      split; [lia|]. split; [discriminate|].
      intros Hge. specialize (Hlt pid eq_refl). lia.
Qed.

Lemma no_engine_signalled_twice_witness :
  let w := run [EvStop; EvStop; EvClose 0 143; EvTimer sample_iso'; EvStop]
               (boot [] sample_iso) in
  (kills 0 (effects w) <= 1)%nat /\
  (ffmpegProcess w = Some 0%nat -> kills 0 (effects w) = 0%nat) /\
  ((length (children w) <= 0)%nat -> kills 0 (effects w) = 0%nat).
Proof.
  apply no_engine_signalled_twice.
  exists [], sample_iso,
    [EvStop; EvStop; EvClose 0 143; EvTimer sample_iso'; EvStop].
  reflexivity.
Defined.

(** X17.  The recording named in the statistics is one an engine writes.
    In every reachable state each child was spawned with the recording path
    its handlers hold, and the path in [stats.currentFile], when there is
    one, is the recording path some engine was spawned with. *)
Theorem currentFile_is_a_recording (w : world) :
  reachable w ->
  (forall pid c,
     children w !! pid = Some c ->
     In (Spawn pid (ffmpegArgs (outputFile c))) (effects w)) /\
  (forall f,
     currentFile (stats w) = Some f ->
     exists pid, In (Spawn pid (ffmpegArgs f)) (effects w)).
Proof.
  revert w. apply (reachable_ind (fun w =>
    (forall pid c,
       children w !! pid = Some c ->
       In (Spawn pid (ffmpegArgs (outputFile c))) (effects w)) /\
    (forall f,
       currentFile (stats w) = Some f ->
       exists pid, In (Spawn pid (ffmpegArgs f)) (effects w)))).
  - intros disk iso. unfold boot.
    destruct (start_frame iso (constructed disk)) as (_ & -> & -> & _).
    rewrite start_effects. split; [|discriminate].
    intros [|pid] c [= <-]. cbn [outputFile length children constructed].
    apply in_or_app. right. apply in_or_app. right.
    right. left. reflexivity.
  - intros w ev _ [Hkids Hfile].
    destruct (step_effects_grow w ev) as [es Hes].
    assert (Hmono : forall e, In e (effects w) -> In e (effects (step w ev)))
      by (intros e He; rewrite Hes; apply in_or_app; left; exact He).
    assert (Hkids' : forall pid c,
              children (step w ev) !! pid = Some c ->
              In (Spawn pid (ffmpegArgs (outputFile c))) (effects (step w ev))).
    { intros pid c [(c0 & Hc0 & <-) | Hnew]%step_children; [|exact Hnew].
      apply Hmono, Hkids, Hc0. }
    split; [exact Hkids'|].
    intros f. rewrite step_stats.
    assert (Hold : currentFile (stats w) = Some f ->
                   exists pid, In (Spawn pid (ffmpegArgs f)) (effects (step w ev))).
    { intros (pid & Hin)%Hfile. exists pid. apply Hmono, Hin. }
    destruct ev as [p now output|p code| | | | | |]; try exact Hold.
    + destruct (halted w) eqn:Hh; [exact Hold|].
      destruct (listening p w) as [c|] eqn:Hl; [|exact Hold].
      destruct (hasProgress output && negb (isLive (stats w))); [|exact Hold].
      simpl. intros [= <-]. exists p.
      apply listening_Some in Hl as [Hl _].
      apply Hmono, Hkids, Hl.
    + destruct (if halted w then None else listening p w); exact Hold.
Qed.

Lemma currentFile_is_a_recording_witness :
  let w := run [EvData 0 1000 "frame=   25"; EvClose 0 0; EvTimer sample_iso']
               (boot [] sample_iso) in
  (forall pid c,
     children w !! pid = Some c ->
     In (Spawn pid (ffmpegArgs (outputFile c))) (effects w)) /\
  (forall f,
     currentFile (stats w) = Some f ->
     exists pid, In (Spawn pid (ffmpegArgs f)) (effects w)).
Proof.
  apply currentFile_is_a_recording.
  exists [], sample_iso,
    [EvData 0 1000 "frame=   25"; EvClose 0 0; EvTimer sample_iso'].
  reflexivity.
Defined.

(** * Properties of the HTTP layer and the pages *)

(** ** The headers of the stream files *)

Lemma get_last3 (a : string) (x y z : ascii) (rest : string) :
  String.get (String.length a + 2)
             (a +:+ String x (String y (String z rest))) = Some z.
Proof.
  induction a as [|c a IH]; [reflexivity|].
  rewrite append_cons. exact IH.
Qed.

Lemma get_last5 (a : string) (v w x y z : ascii) (rest : string) :
  String.get (String.length a + 4)
             (a +:+ String v (String w (String x (String y (String z rest)))))
    = Some z.
Proof.
  induction a as [|c a IH]; [reflexivity|].
  rewrite append_cons. exact IH.
Qed.

(** A name cannot end both in ".ts" and in ".m3u8". *)
Lemma ts_is_not_m3u8 (path : string) :
  Str.endsWith ".ts" path = true -> Str.endsWith ".m3u8" path = false.
Proof.
  intros [a Ha]%endsWith_spec.
  destruct (Str.endsWith ".m3u8" path) eqn:E; [|reflexivity].
  apply endsWith_spec in E as [b Hb].
  assert (Hlen : (String.length a + 2 = String.length b + 4)%nat).
  { assert (H : String.length (a +:+ ".ts") = String.length (b +:+ ".m3u8"))
      by congruence.
    rewrite !length_append in H. simpl in H. lia. }
  pose proof (get_last3 a "." "t" "s" "") as H3.
  pose proof (get_last5 b "." "m" "3" "u" "8" "") as H5.
  rewrite <- Ha in H3. rewrite <- Hb, <- Hlen in H5. congruence.
Qed.

(** X8.  The headers of the stream files.  Every answer below "/hls" allows
    any origin and the Range header.  A playlist (a path ending in ".m3u8")
    is typed as an HLS playlist and must not be cached; a segment (a path
    ending in ".ts") is typed as MPEG-TS and may be cached for a year, never
    with the playlist's headers.  For every other path, that is, for every
    name the buffer cleanup would not select either, the type and the cache
    headers are left as they were. *)
Theorem hls_headers_by_kind (path : string) (h : gmap string string) :
  let h' := Http.hlsHeaders path h in
  (h' !! "Access-Control-Allow-Origin" = Some "*" /\
   h' !! "Access-Control-Allow-Headers" = Some "Range") /\
  ((exists a, path = a +:+ ".m3u8") ->
     h' !! "Content-Type" = Some "application/vnd.apple.mpegurl" /\
     h' !! "Cache-Control" = Some "no-cache, no-store, must-revalidate") /\
  ((exists a, path = a +:+ ".ts") ->
     h' !! "Content-Type" = Some "video/mp2t" /\
     h' !! "Cache-Control" = Some "public, max-age=31536000") /\
  (isHLSFile path = false ->
     h' !! "Content-Type" = h !! "Content-Type" /\
     h' !! "Cache-Control" = h !! "Cache-Control").
Proof.
  cbv zeta. unfold Http.hlsHeaders, isHLSFile.
  destruct (Str.endsWith ".m3u8" path) eqn:Em;
    [|destruct (Str.endsWith ".ts" path) eqn:Et].
  - split; [split; by simplify_map_eq|].
    split; [intros _; split; by simplify_map_eq|].
    split; [|rewrite orb_true_r; discriminate].
    intros Hts%endsWith_spec. apply ts_is_not_m3u8 in Hts. congruence.
  - split; [split; by simplify_map_eq|].
    split; [intros Hm%endsWith_spec; congruence|].
    split; [intros _; split; by simplify_map_eq|discriminate].
  - split; [split; by simplify_map_eq|].
    split; [intros Hm%endsWith_spec; congruence|].
    split; [intros Hts%endsWith_spec; congruence|].
    intros _. split; by simplify_map_eq.
Qed.

(** ** The uptime on the dashboard *)

(** X9.  What [formatUptime] shows.  Below one minute (and for a negative
    argument) it shows the whole seconds; from one minute to one hour the
    whole minutes and the seconds of the running minute; from one hour on
    the whole hours and the minutes of the running hour, and no seconds.
    The parts shown are the digits of the time in base 60: minutes and
    seconds lie between 0 and 59. *)
Theorem formatUptime_by_range (ms : Z) :
  (ms < 60000 ->
     Dashboard.formatUptime ms = Dashboard.showZ (ms / 1000) +:+ "s") /\
  (60000 <= ms < 3600000 ->
     Dashboard.formatUptime ms =
       Dashboard.showZ (ms / 60000) +:+ "m " +:+
       Dashboard.showZ ((ms / 1000) mod 60) +:+ "s" /\
     1 <= ms / 60000 < 60) /\
  (3600000 <= ms ->
     Dashboard.formatUptime ms =
       Dashboard.showZ (ms / 3600000) +:+ "h " +:+
       Dashboard.showZ ((ms / 60000) mod 60) +:+ "m" /\
     1 <= ms / 3600000) /\
  (0 <= (ms / 1000) mod 60 < 60 /\ 0 <= (ms / 60000) mod 60 < 60).
Proof.
  unfold Dashboard.formatUptime.
  assert (Hm : ms / 1000 / 60 = ms / 60000)
    by (rewrite Z.div_div by lia; reflexivity).
  assert (Hh : ms / 1000 / 60 / 60 = ms / 3600000)
    by (rewrite !Z.div_div by lia; reflexivity).
  rewrite Hh, Hm.
  split; [|split; [|split]].
  - intros Hlt.
    assert (ms / 3600000 <= 0 /\ ms / 60000 <= 0)
      by (split; Z.to_euclidean_division_equations; lia).
    destruct (ms / 3600000 >? 0) eqn:E1; [lia|].
    destruct (ms / 60000 >? 0) eqn:E2; [lia|]. reflexivity.
  - intros [Hlo Hhi].
    assert (ms / 3600000 <= 0 /\ 1 <= ms / 60000 < 60 /\ 0 <= ms / 1000)
      by (repeat split; Z.to_euclidean_division_equations; lia).
    destruct (ms / 3600000 >? 0) eqn:E1; [lia|].
    destruct (ms / 60000 >? 0) eqn:E2; [|lia].
    rewrite Z.rem_mod_nonneg by lia. split; [reflexivity|lia].
  - intros Hlo.
    assert (1 <= ms / 3600000 /\ 0 <= ms / 60000)
      by (split; Z.to_euclidean_division_equations; lia).
    destruct (ms / 3600000 >? 0) eqn:E1; [|lia].
    rewrite Z.rem_mod_nonneg by lia. split; [reflexivity|lia].
  - split; apply Z.mod_pos_bound; lia.
Qed.

(** X10.  The uptime of an ended session.  Take a session that goes live at
    time [t] and whose engine then exits.  While it is live, [getStats]
    reports the time since [t] and the dashboard shows it formatted.  After
    the exit [getStats] still reports the time since [t], growing with the
    clock, with the live flag down; the dashboard then shows "0s" and
    "Offline" whatever uptime the answer carries. *)
Theorem ended_session_shows_zero
    (w : world) (pid : nat) (c : child) (t now code : Z) (x : string) :
  halted w = false ->
  listening pid w = Some c ->
  isLive (stats w) = false ->
  hasProgress x = true ->
  t <> 0 ->
  let w1 := step w (EvData pid t x) in
  let w2 := step w1 (EvClose pid code) in
  let s1 := fst (getStats now w1) in
  let s2 := fst (getStats now w2) in
  (snap_isLive s1 = true /\ uptime s1 = now - t /\
   Dashboard.uptimeCell (Dashboard.updateStats s1) =
     Dashboard.formatUptime (now - t)) /\
  (snap_isLive s2 = false /\ uptime s2 = now - t /\
   Dashboard.uptimeCell (Dashboard.updateStats s2) = "0s" /\
   Dashboard.streamStatus (Dashboard.updateStats s2) = "Offline").
Proof.
  intros Hh Hl Hidle Hx Ht w1 w2 s1 s2.
  destruct (step_data w pid c t x Hh Hl) as (Hh1 & Hl1 & Hs1 & _).
  fold w1 in Hh1, Hl1, Hs1. rewrite Hx, Hidle in Hs1. simpl in Hs1.
  destruct (step_close w1 pid c code Hh1 Hl1) as (_ & Hs2 & _).
  fold w2 in Hs2. rewrite Hs1 in Hs2. simpl in Hs2.
  assert (Hz : (t =? 0)%Z = false) by (apply Z.eqb_neq; exact Ht).
  subst s1 s2. unfold getStats, Dashboard.updateStats. simpl.
  rewrite Hs1, Hs2. simpl. rewrite Hz. auto 10.
Qed.

Lemma ended_session_shows_zero_witness :
  let w := boot [] sample_iso in
  let w1 := step w (EvData 0 1000 "frame=   25") in
  let w2 := step w1 (EvClose 0 0) in
  let s1 := fst (getStats 66000 w1) in
  let s2 := fst (getStats 66000 w2) in
  (snap_isLive s1 = true /\ uptime s1 = 66000 - 1000 /\
   Dashboard.uptimeCell (Dashboard.updateStats s1) =
     Dashboard.formatUptime (66000 - 1000)) /\
  (snap_isLive s2 = false /\ uptime s2 = 66000 - 1000 /\
   Dashboard.uptimeCell (Dashboard.updateStats s2) = "0s" /\
   Dashboard.streamStatus (Dashboard.updateStats s2) = "Offline").
Proof.
  apply (ended_session_shows_zero (boot [] sample_iso) 0%nat
           (mkChild (recordingPath sample_iso) false) 1000 66000 0
           "frame=   25").
  - reflexivity.
  - reflexivity.
  - reflexivity.
  - reflexivity.
  - discriminate.
Defined.

(** ** The player page *)

Lemma iter_status_hls (n : nat) (s : string) (a : Watch.action) (p : Watch.page) :
  Watch.hls
    (Nat.iter n (fun p => Watch.act a (Watch.set_status s p)) p) = Watch.hls p.
Proof. induction n as [|n IH]; simpl; [reflexivity|exact IH]. Qed.

(** Without Hls.js nothing ever stores a player in [hls]. *)
Lemma no_player_without_hlsjs (b : Watch.browser) (evs : list Watch.event) :
  b <> Watch.HlsJs ->
  forall p, Watch.hls p = false -> Watch.hls (Watch.run b evs p) = false.
Proof.
  intros Hb. induction evs as [|ev evs IH]; intros p Hp; [exact Hp|].
  change (Watch.run b (ev :: evs) p) with (Watch.run b evs (Watch.step b p ev)).
  apply IH.
  destruct ev as [isLive| |autoplay|e| |].
  - destruct p as [h wl src ls lb om pw st pi pr d]. simpl in Hp. subst h.
    destruct isLive, wl; reflexivity.
  - simpl. destruct (Watch.pendingInit p); [exact Hp|].
    destruct b; [contradiction| |]; exact Hp.
  - simpl. rewrite Hp. exact Hp.
  - simpl. rewrite Hp. exact Hp.
  - simpl. destruct (Watch.pendingReload p); [exact Hp|]. simpl.
    rewrite Hp. exact Hp.
  - simpl. rewrite iter_status_hls. exact Hp.
Qed.

(** X11.  The player is rebuilt at every poll without Hls.js.  In a browser
    that plays HLS natively (or not at all) [initPlayer] never stores a
    player in [hls], so the test [!wasLive || !hls] holds at every answer
    that reports a live stream: each such answer empties the video source,
    reloads the video element and schedules [initPlayer] again, however
    long the stream has been playing.  With a player in [hls] and the
    stream known to be live, such an answer touches neither the player nor
    the video element. *)
Theorem native_player_restarts_on_every_poll
    (b : Watch.browser) (evs : list Watch.event) :
  b <> Watch.HlsJs ->
  let p := Watch.run b evs Watch.loaded in
  let p' := Watch.step b p (Watch.Poll true) in
  Watch.hls p = false /\
  (Watch.pendingInit p' = S (Watch.pendingInit p) /\
   Watch.videoSrc p' = "" /\
   Watch.tally Watch.is_video_load p' = S (Watch.tally Watch.is_video_load p)) /\
  (forall q,
     Watch.hls q = true -> Watch.wasLive q = true ->
     let q' := Watch.step b q (Watch.Poll true) in
     Watch.did q' = Watch.did q /\ Watch.pendingInit q' = Watch.pendingInit q /\
     Watch.videoSrc q' = Watch.videoSrc q /\ Watch.hls q' = true).
Proof.
  intros Hb p p'.
  assert (Hp : Watch.hls p = false)
    by (apply no_player_without_hlsjs; [exact Hb|reflexivity]).
  split; [exact Hp|]. split.
  - subst p'. clearbody p.
    destruct p as [h wl src ls lb om pw st pi pr d]. simpl in Hp. subst h.
    unfold Watch.tally. destruct wl; simpl;
      rewrite List.filter_app, length_app; simpl; repeat split; lia.
  - intros q Hq Hw.
    destruct q as [h wl src ls lb om pw st pi pr d]. simpl in Hq, Hw. subst.
    simpl. auto.
Qed.

Lemma native_player_restarts_on_every_poll_witness :
  let evs := [Watch.Poll true; Watch.InitTimer; Watch.LoadedMetadata;
              Watch.Poll true; Watch.InitTimer] in
  let p := Watch.run Watch.NativeHLS evs Watch.loaded in
  let p' := Watch.step Watch.NativeHLS p (Watch.Poll true) in
  Watch.hls p = false /\
  (Watch.pendingInit p' = S (Watch.pendingInit p) /\
   Watch.videoSrc p' = "" /\
   Watch.tally Watch.is_video_load p' = S (Watch.tally Watch.is_video_load p)) /\
  (forall q,
     Watch.hls q = true -> Watch.wasLive q = true ->
     let q' := Watch.step Watch.NativeHLS q (Watch.Poll true) in
     Watch.did q' = Watch.did q /\ Watch.pendingInit q' = Watch.pendingInit q /\
     Watch.videoSrc q' = Watch.videoSrc q /\ Watch.hls q' = true).
Proof.
  apply (native_player_restarts_on_every_poll Watch.NativeHLS).
  discriminate.
Defined.

(** * Properties of the load-test client *)

Section LoadTestProperties.

Import LoadTest.

(** ** Sums *)

Lemma fold_add_shift (l : list Z) (a : Z) :
  fold_left Z.add l a = a + fold_left Z.add l 0.
Proof.
  revert a. induction l as [|x l IH]; intros a; cbn [fold_left]; [lia|].
  rewrite (IH (a + x)), (IH (0 + x)). lia.
Qed.

Lemma sum_cons (x : Z) (l : list Z) : Client.sum (x :: l) = x + Client.sum l.
Proof. unfold Client.sum. simpl. apply fold_add_shift. Qed.

Lemma sum_insert (f : TestClient -> Z) (cs : list TestClient) (i : nat)
    (c c' : TestClient) :
  cs !! i = Some c ->
  Client.sum (map f (<[i:=c']> cs)) = Client.sum (map f cs) - f c + f c'.
Proof.
  revert i. induction cs as [|x cs IH]; intros [|i] Hl; try discriminate;
    simpl in *.
  - injection Hl as ->. rewrite !sum_cons. lia.
  - rewrite !sum_cons, (IH i Hl). lia.
Qed.

Lemma sum_bounds (l : list Z) (lo hi : Z) :
  Forall (fun x => lo <= x <= hi) l ->
  Z.of_nat (length l) * lo <= Client.sum l <= Z.of_nat (length l) * hi.
Proof.
  induction 1 as [|x l Hx _ IH]; [unfold Client.sum; simpl; lia|].
  rewrite sum_cons. cbn [length]. lia.
Qed.

(** ** The totals *)

(** X12.  The totals are the sums over the clients.  Whatever events reach
    the handlers of whatever clients, the four global counters of frames,
    video bytes, audio chunks and audio bytes equal the sums of the
    clients' own counters. *)
Theorem totals_are_sums
    (cfg : config) (now : Z) (born : nat -> Z) (evs : list event) :
  let g := run evs (initializeClients cfg now born) in
  totalFramesReceived g = over_clients Client.framesReceived g /\
  totalVideoBytes g = over_clients Client.videoBytes g /\
  totalAudioChunks g = over_clients Client.audioChunksReceived g /\
  totalAudioBytes g = over_clients Client.audioBytes g.
Proof.
  cbv zeta. induction evs as [|ev evs IH] using rev_ind.
  - unfold over_clients, initializeClients. simpl.
    assert (Hz : forall (f : Client.stats -> Z) n k,
      (forall t, f (Client.fresh t) = 0) ->
      Client.sum (map (fun c => f (stats c))
        (map (fun i => mkClient (Z.of_nat (S i)) false (Client.fresh (born i))
                                false)
             (seq k n))) = 0).
    { intros f n. induction n as [|n IHn]; intros k Hf; [reflexivity|].
      cbn [seq map]. rewrite sum_cons, IHn by exact Hf. cbn [stats].
      rewrite Hf. lia. }
    rewrite !Hz by reflexivity. auto.
  - unfold run in *. rewrite fold_left_app. simpl.
    set (g := fold_left step evs (initializeClients cfg now born)) in *.
    clearbody g. destruct IH as (Hf & Hv & Hc & Ha).
    unfold over_clients in *.
    destruct ev as [i|i|i|i|i|i t len|i len|i msg iso|i]; simpl;
      try (destruct (clients g !! i) as [c|] eqn:Hl; [|auto]);
      simpl; auto;
      rewrite !(sum_insert _ _ _ _ _ Hl); simpl; repeat split; lia.
Qed.

(** ** The latency window *)

Lemma on_video_frame_window (now len : Z) (s : Client.stats) :
  (length (Client.latencies s) <= window)%nat ->
  (length (Client.latencies (Client.on_video_frame now len s)) <= window)%nat.
Proof.
  intros Hw. unfold Client.on_video_frame. simpl.
  destruct (Client.lastFrameTime s >? 0); [|exact Hw].
  destruct (window <? length (Client.latencies s ++
                               [(now - Client.lastFrameTime s)%Z]))%nat eqn:E.
  - rewrite length_tl, length_app. simpl. lia.
  - apply Nat.ltb_ge in E. exact E.
Qed.

(** X13.  The latency window is bounded.  No client ever keeps more than
    100 latency samples, whatever frames and other events it receives. *)
Theorem latency_window_bounded
    (cfg : config) (now : Z) (born : nat -> Z) (evs : list event) :
  Forall (fun c => (length (Client.latencies (stats c)) <= window)%nat)
         (clients (run evs (initializeClients cfg now born))).
Proof.
  induction evs as [|ev evs IH] using rev_ind.
  - unfold initializeClients. simpl. apply Forall_forall.
    intros c [i [-> _]]%list_elem_of_fmap. simpl. unfold window. lia.
  - unfold run in *. rewrite fold_left_app. simpl.
    set (g := fold_left step evs (initializeClients cfg now born)) in *.
    clearbody g.
    destruct ev as [i|i|i|i|i|i t len|i len|i msg iso|i]; simpl;
      try (destruct (clients g !! i) as [c|] eqn:Hl; [|exact IH]);
      try exact IH; simpl; apply Forall_insert; try exact IH;
      assert (Hc : (length (Client.latencies (stats c)) <= window)%nat)
        by (rewrite Forall_forall in IH; apply IH, list_elem_of_lookup; eauto);
      try exact Hc.
    apply on_video_frame_window, Hc.
Qed.

Lemma gaps_snoc (ts : list Z) (t : Z) :
  ts <> [] -> gaps (ts ++ [t]) = gaps ts ++ [t - List.last ts 0].
Proof.
  induction ts as [|a ts IH]; [contradiction|]. intros _.
  destruct ts as [|b ts]; [reflexivity|].
  change (gaps ((a :: b :: ts) ++ [t]))
    with ((b - a) :: gaps ((b :: ts) ++ [t])).
  rewrite IH by discriminate. reflexivity.
Qed.

(** Pushing a sample and dropping the oldest one beyond the window keeps
    the last [window] samples. *)
Lemma last_n_push (l : list Z) (x : Z) :
  let pushed := last_n window l ++ [x] in
  (if (window <? length pushed)%nat then tail pushed else pushed) =
    last_n window (l ++ [x]).
Proof.
  cbv zeta. unfold last_n, window.
  rewrite !length_app, length_drop. cbn [length].
  destruct (100 <? length l - (length l - 100) + 1)%nat eqn:E.
  - apply Nat.ltb_lt in E.
    assert (Hlen : (100 <= length l)%nat) by lia.
    replace (length l + 1 - 100)%nat with (S (length l - 100)) by lia.
    rewrite drop_app_le by lia.
    destruct (drop (length l - 100) l) as [|y rest] eqn:Hd.
    + apply (f_equal length) in Hd. rewrite length_drop in Hd.
      simpl in Hd. lia.
    + replace (S (length l - 100)) with (length l - 100 + 1)%nat by lia.
      rewrite <- drop_drop, Hd. reflexivity.
  - apply Nat.ltb_ge in E.
    replace (length l - 100)%nat with 0%nat by lia.
    replace (length l + 1 - 100)%nat with 0%nat by lia. reflexivity.
Qed.

(** What a client that started fresh holds after frames at the times [ts],
    all positive. *)
Lemma on_video_frame_recent (ts : list Z) (t len : Z) (s : Client.stats) :
  Forall (fun x => 0 < x) ts ->
  Client.latencies s = last_n window (gaps ts) ->
  Client.lastFrameTime s = List.last ts 0 ->
  Client.latencies (Client.on_video_frame t len s) =
    last_n window (gaps (ts ++ [t])) /\
  Client.lastFrameTime (Client.on_video_frame t len s) =
    List.last (ts ++ [t]) 0.
Proof.
  intros Hpos Hlat Hlast. unfold Client.on_video_frame. cbn [Client.latencies
    Client.lastFrameTime]. rewrite List.last_last. split; [|reflexivity].
  destruct ts as [|a ts].
  - simpl in Hlast. rewrite Hlast, Hlat. reflexivity.
  - assert (Hp : 0 < List.last (a :: ts) 0).
    { assert (Hin : In (List.last (a :: ts) 0) (a :: ts)).
      { destruct (@exists_last _ (a :: ts)) as (l' & y & ->); [discriminate|].
        rewrite List.last_last. apply in_or_app. right. left. reflexivity. }
      rewrite Forall_forall in Hpos. apply Hpos, list_elem_of_In, Hin. }
    rewrite Hlast. apply Z.gtb_lt in Hp. rewrite Hp.
    rewrite gaps_snoc by discriminate. rewrite Hlat.
    apply (last_n_push (gaps (a :: ts))).
Qed.

(** X14.  The latency window holds the latest gaps.  For a client that
    starts fresh and whose frames arrive at positive times, the samples it
    holds after any events are the gaps between its successive frames, the
    last 100 of them, oldest first; the first frame gives no sample, and the
    events of other clients and this client's other events do not touch
    them. *)
Theorem latency_window_is_recent_gaps
    (g : totals) (i : nat) (c : TestClient) (evs : list event) :
  clients g !! i = Some c ->
  Client.latencies (stats c) = [] ->
  Client.lastFrameTime (stats c) = 0 ->
  Forall (fun t => 0 < t) (frame_times i evs) ->
  exists c',
    clients (run evs g) !! i = Some c' /\
    Client.latencies (stats c') = last_n window (gaps (frame_times i evs)) /\
    Client.lastFrameTime (stats c') = List.last (frame_times i evs) 0.
Proof.
  intros Hl Hlat Hlast.
  induction evs as [|ev evs IH] using rev_ind; intros Hpos.
  - exists c. simpl. rewrite Hlat, Hlast. auto.
  - unfold frame_times in Hpos |- *. rewrite flat_map_app in Hpos |- *.
    apply Forall_app in Hpos as [Hpos Hnew].
    destruct (IH Hpos) as (c1 & Hl1 & Hlat1 & Hlast1).
    fold (frame_times i evs) in *.
    unfold run in *. rewrite fold_left_app.
    set (g1 := fold_left step evs g) in *. clearbody g1.
    assert (Hlen : (i < length (clients g1))%nat)
      by (eapply lookup_lt_Some; exact Hl1).
    assert (Hkeep : forall (f : Client.stats -> Client.stats) j c2,
      clients g1 !! j = Some c2 ->
      (j = i -> Client.latencies (f (stats c1)) = Client.latencies (stats c1) /\
                Client.lastFrameTime (f (stats c1)) =
                  Client.lastFrameTime (stats c1)) ->
      exists c', <[j:=with_stats f c2]> (clients g1) !! i = Some c' /\
        Client.latencies (stats c') = last_n window (gaps (frame_times i evs)) /\
        Client.lastFrameTime (stats c') = List.last (frame_times i evs) 0).
    { intros f j c2 Hj Hf. destruct (Nat.eq_dec j i) as [->|Hne].
      - assert (c2 = c1) by congruence. subst c2.
        exists (with_stats f c1). rewrite list_lookup_insert_eq by exact Hlen.
        destruct (Hf eq_refl) as [Ha Hb]. cbn [stats with_stats].
        rewrite Ha, Hb. auto.
      - exists c1. rewrite list_lookup_insert_ne by exact Hne. auto. }
    destruct ev as [j|j|j|j|j|j t len|j len|j msg iso|j]; simpl;
      rewrite ?app_nil_r;
      try (destruct (clients g1 !! j) as [c2|] eqn:Hj; [|exists c1; auto]);
      cbn [clients set_clients].
    + destruct (Nat.eq_dec j i) as [->|Hne].
      * exists (mkClient (id c2) true (stats c2) (fpsInterval c2)).
        rewrite list_lookup_insert_eq by exact Hlen.
        assert (c2 = c1) by congruence. subst c2. auto.
      * exists c1. simpl. rewrite list_lookup_insert_ne by exact Hne. auto.
    + destruct (Nat.eq_dec j i) as [->|Hne].
      * exists (mkClient (id c2) (socket c2)
                  (Client.set_connected true (stats c2)) true).
        simpl. rewrite list_lookup_insert_eq by exact Hlen.
        assert (c2 = c1) by congruence. subst c2. auto.
      * exists c1. simpl. rewrite list_lookup_insert_ne by exact Hne. auto.
    + apply (Hkeep Client.count_error j c2 Hj). auto.
    + exists c1. auto.
    + apply (Hkeep (Client.set_connected false) j c2 Hj). auto.
    + destruct (Nat.eq_dec j i) as [->|Hne].
      * rewrite Nat.eqb_refl.
        assert (c2 = c1) by congruence. subst c2.
        exists (with_stats (Client.on_video_frame t len) c1).
        rewrite list_lookup_insert_eq by exact Hlen.
        split; [reflexivity|].
        apply on_video_frame_recent; assumption.
      * apply Nat.eqb_neq in Hne as Hne'. rewrite Hne'. rewrite app_nil_r.
        exists c1. rewrite list_lookup_insert_ne by exact Hne. auto.
    + destruct (Nat.eq_dec j i) as [->|Hne]; [congruence|].
      apply Nat.eqb_neq in Hne. rewrite Hne. rewrite app_nil_r. auto.
    + apply (Hkeep (Client.on_audio_data len) j c2 Hj). auto.
    + apply (Hkeep Client.count_error j c2 Hj). auto.
    + apply (Hkeep Client.fps_tick j c2 Hj). auto.
Qed.

Lemma latency_window_is_recent_gaps_witness :
  let g := initializeClients (mkConfig 2 5000 60000 2000 3) 1
                             (fun i => 1 + Z.of_nat i) in
  let evs := [Dial 0; Connect 0; VideoFrame 0 1000 512; AudioData 0 64;
              VideoFrame 1 1010 512; VideoFrame 0 1040 600; FpsTick 0;
              VideoFrame 0 1075 480] in
  exists c',
    clients (run evs g) !! 0%nat = Some c' /\
    Client.latencies (stats c') = last_n window (gaps (frame_times 0 evs)) /\
    Client.lastFrameTime (stats c') = List.last (frame_times 0 evs) 0.
Proof.
  apply (latency_window_is_recent_gaps
           (initializeClients (mkConfig 2 5000 60000 2000 3) 1
                              (fun i => 1 + Z.of_nat i)) 0%nat
           (mkClient 1 false (Client.fresh 1) false)).
  - reflexivity.
  - reflexivity.
  - reflexivity.
  - repeat constructor.
Defined.

(** ** The average latency *)

(** X15.  The average latency lies within the samples.  [getAverageLatency]
    is 0 for a client without samples; otherwise, if every sample lies
    between [lo] and [hi], so does the rounded average. *)
Theorem average_latency_within_samples (s : Client.stats) (lo hi : Z) :
  Forall (fun x => lo <= x <= hi) (Client.latencies s) ->
  (Client.latencies s = [] -> Client.getAverageLatency s = 0) /\
  (Client.latencies s <> [] -> lo <= Client.getAverageLatency s <= hi).
Proof.
  intros Hb. unfold Client.getAverageLatency.
  destruct (Client.latencies s) as [|x l] eqn:Hlat.
  - split; [reflexivity|contradiction].
  - split; [discriminate|]. intros _.
    pose proof (sum_bounds _ lo hi Hb) as Hs.
    set (n := Z.of_nat (length (x :: l))) in *.
    assert (Hn : 0 < n) by (subst n; cbn [length]; lia).
    clearbody n. cbn [length Nat.eqb]. unfold Client.round_div. split.
    + apply Z.div_le_lower_bound; lia.
    + apply Z.lt_succ_r, Z.div_lt_upper_bound; lia.
Qed.

Lemma average_latency_within_samples_witness :
  let s := Client.mkStats 4 0 2048 0 1100 [33; 34; 33] true 0 0 1 4 in
  (Client.latencies s = [] -> Client.getAverageLatency s = 0) /\
  (Client.latencies s <> [] -> 33 <= Client.getAverageLatency s <= 34).
Proof.
  apply (average_latency_within_samples
           (Client.mkStats 4 0 2048 0 1100 [33; 34; 33] true 0 0 1 4) 33 34).
  repeat constructor; lia.
Defined.

(** ** The clients and their ids *)

Lemma lookup_map {A B} (f : A -> B) (l : list A) (i : nat) :
  map f l !! i = f <$> l !! i.
Proof.
  revert i. induction l as [|x l IH]; intros [|i]; simpl; auto.
Qed.

(** X18.  The clients keep their places and ids.  After any events there
    are as many clients as the configuration asks for, the client at
    position [i] has the id [i + 1], and every error report names one of
    them. *)
Theorem clients_keep_their_ids
    (cfg : config) (now : Z) (born : nat -> Z) (evs : list event) :
  let g := run evs (initializeClients cfg now born) in
  length (clients g) = NUM_CLIENTS cfg /\
  (forall i c, clients g !! i = Some c -> id c = Z.of_nat (S i)) /\
  Forall (fun r => 1 <= clientId r <= Z.of_nat (NUM_CLIENTS cfg)) (errors g).
Proof.
  cbv zeta. induction evs as [|ev evs IH] using rev_ind.
  - unfold initializeClients. simpl.
    rewrite length_map, length_seq. split; [reflexivity|]. split; [|constructor].
    intros i c. rewrite lookup_map.
    destruct (seq 0 (NUM_CLIENTS cfg) !! i) as [k|] eqn:Hk; [|discriminate].
    apply lookup_seq in Hk as [-> _]. intros [= <-]. reflexivity.
  - unfold run in *. rewrite fold_left_app.
    set (g := fold_left step evs (initializeClients cfg now born)) in *.
    clearbody g. destruct IH as (Hlen & Hid & Herr).
    assert (Hput : forall j c2 c3,
      clients g !! j = Some c2 -> id c3 = id c2 ->
      length (<[j:=c3]> (clients g)) = NUM_CLIENTS cfg /\
      (forall i c, <[j:=c3]> (clients g) !! i = Some c -> id c = Z.of_nat (S i))).
    { intros j c2 c3 Hj Hsame. rewrite length_insert. split; [exact Hlen|].
      intros i c. destruct (Nat.eq_dec j i) as [->|Hne].
      - rewrite list_lookup_insert_eq by (eapply lookup_lt_Some; exact Hj).
        intros [= <-]. rewrite Hsame. apply Hid, Hj.
      - rewrite list_lookup_insert_ne by exact Hne. apply Hid. }
    destruct ev as [j|j|j|j|j|j t len|j len|j msg iso|j]; cbn [fold_left step];
      try (destruct (clients g !! j) as [c2|] eqn:Hj; [|auto]);
      cbn [clients set_clients errors]; auto.
    + destruct (Hput j c2 (mkClient (id c2) true (stats c2) (fpsInterval c2)) Hj eq_refl).
      auto.
    + destruct (Hput j c2 (mkClient (id c2) (socket c2)
                  (Client.set_connected true (stats c2)) true) Hj eq_refl).
      auto.
    + destruct (Hput j c2 (with_stats Client.count_error c2) Hj eq_refl). auto.
    + destruct (Hput j c2 (with_stats (Client.set_connected false) c2) Hj eq_refl).
      auto.
    + destruct (Hput j c2 (with_stats (Client.on_video_frame t len) c2) Hj eq_refl).
      auto.
    + destruct (Hput j c2 (with_stats (Client.on_audio_data len) c2) Hj eq_refl).
      auto.
    + destruct (Hput j c2 (with_stats Client.count_error c2) Hj eq_refl)
        as [Hl' Hi'].
      split; [exact Hl'|]. split; [exact Hi'|].
      apply Forall_app. split; [exact Herr|]. constructor; [|constructor].
      cbn [clientId]. rewrite (Hid j c2 Hj).
      apply lookup_lt_Some in Hj. lia.
    + destruct (Hput j c2 (with_stats Client.fps_tick c2) Hj eq_refl). auto.
Qed.

End LoadTestProperties.
